(** * fx_arbitrage: the order book level store and the feed applier

    A shallow embedding of [orderbook.py] (class [OrderBook]) and of
    [update_order_book] from [run_data.py], followed by the properties of
    the specification that concern them.

    - Python floats are IEEE binary64 values: [spec_float] with precision 53
      and maximal exponent 1024, compared and subtracted with the
      operations of the standard library's [SpecFloat].
    - An [OrderedDict] is the list of its entries in iteration order.
    - A method that mutates [self] and may raise is a function from the state
      before the call to the state after it and the outcome. *)

From Stdlib Require Import ZArith List Bool String Lia Sorted Permutation.
From Stdlib Require Import Floats.SpecFloat.
From stdpp Require Import gmap strings.
Import ListNotations.

Local Open Scope Z_scope.

(** ** Python floats *)

Module PyFloat.

Definition float : Type := spec_float.

Definition prec : Z := 53.
Definition emax : Z := 1024.

(** The literal [0.0]. *)
Definition zero : float := S754_zero false.

(** [a == b], [a < b] and [a > b] on floats. *)
Definition eq (a b : float) : bool := SFeqb a b.
Definition lt (a b : float) : bool := SFltb a b.
Definition gt (a b : float) : bool := SFltb b a.

(** [a - b]. *)
Definition sub (a b : float) : float := SFsub prec emax a b.

(** The float of an integer (exact below 2^53). *)
Definition of_Z (n : Z) : float := binary_normalize prec emax n 0 false.

(** A decimal literal with numerator [n] over the power of ten [d], such as
    [1.2005] = 12005 / 10000: the nearest binary64 value, obtained as the
    correctly rounded quotient of two exactly represented integers. *)
Definition decimal (n d : Z) : float := SFdiv prec emax (of_Z n) (of_Z d).

Definition is_nan (a : float) : bool :=
  match a with S754_nan => true | _ => false end.

(** [a is b] read on values: the same float datum. *)
Definition same (a b : float) : bool :=
  match a, b with
  | S754_zero s1, S754_zero s2 => Bool.eqb s1 s2
  | S754_infinity s1, S754_infinity s2 => Bool.eqb s1 s2
  | S754_nan, S754_nan => true
  | S754_finite s1 m1 e1, S754_finite s2 m2 e2 =>
      Bool.eqb s1 s2 && Pos.eqb m1 m2 && Z.eqb e1 e2
  | _, _ => false
  end.

(** [is_pos a] is the test [a > 0.0] passed. *)
Definition is_pos (a : float) : Prop := gt a zero = true.
Definition is_neg (a : float) : Prop := lt a zero = true.

End PyFloat.

Abbreviation float := PyFloat.float.

(** ** Exceptions and outcomes *)

Inductive exn : Type := KeyError | ValueError | TypeError.

Inductive result (A : Type) : Type :=
| Ok (a : A)
| Raise (e : exn).

Arguments Ok {A} a.
Arguments Raise {A} e.

(** ** collections.OrderedDict with float keys and float values *)

Module OrderedDict.

(** The entries, first inserted first. *)
Definition t : Type := list (float * float).

Definition empty : t := [].

(** A stored key answers a lookup when it is the same object or compares
    equal.  Every lookup of the order book is made either with a price that
    passed [price > 0.0] or with a key read from the dict itself. *)
Definition key_match (stored key : float) : bool :=
  PyFloat.same stored key || PyFloat.eq stored key.

Arguments key_match : simpl never.

Definition keys (d : t) : list float := map fst d.
Definition items (d : t) : list (float * float) := d.

(** [key in d] *)
Fixpoint contains (d : t) (key : float) : bool :=
  match d with
  | [] => false
  | (k, _) :: d' => key_match k key || contains d' key
  end.

(** [d[key]] *)
Fixpoint getitem (d : t) (key : float) : result float :=
  match d with
  | [] => Raise KeyError
  | (k, v) :: d' => if key_match k key then Ok v else getitem d' key
  end.

(** [d[key] = v]: an existing entry keeps its place and its key, a new
    entry goes last. *)
Fixpoint setitem (d : t) (key v : float) : t :=
  match d with
  | [] => [(key, v)]
  | (k, w) :: d' =>
      if key_match k key then (k, v) :: d' else (k, w) :: setitem d' key v
  end.

(** [del d[key]] *)
Fixpoint delitem (d : t) (key : float) : result t :=
  match d with
  | [] => Raise KeyError
  | (k, w) :: d' =>
      if key_match k key then Ok d'
      else match delitem d' key with
           | Ok d'' => Ok ((k, w) :: d'')
           | Raise e => Raise e
           end
  end.

(** [OrderedDict(pairs)] *)
Definition of_items (pairs : list (float * float)) : t :=
  fold_left (fun d kv => setitem d (fst kv) (snd kv)) pairs empty.

(** The entries of a side as the order book builds them: no price twice,
    every price one that passed [price > 0.0]. *)
Definition wf (d : t) : Prop :=
  List.NoDup (keys d) /\ Forall PyFloat.is_pos (keys d).

End OrderedDict.

(** ** sorted() on lists of (price, quantity) tuples *)

Module PySort.

(** [a < b] on 2-tuples of floats: decided by the first component where the
    two differ. *)
Definition tuple_lt (a b : float * float) : bool :=
  if negb (PyFloat.eq (fst a) (fst b)) then PyFloat.lt (fst a) (fst b)
  else if negb (PyFloat.eq (snd a) (snd b)) then PyFloat.lt (snd a) (snd b)
  else false.

(** One step of the stable insertion: [x] goes in front of the first element
    it is smaller than. *)
Fixpoint insert (x : float * float) (l : list (float * float)) :=
  match l with
  | [] => [x]
  | y :: l' => if tuple_lt x y then x :: l else y :: insert x l'
  end.

(** [sorted(l)]: stable, comparing with [<] only. *)
Definition sorted (l : list (float * float)) : list (float * float) :=
  fold_left (fun acc x => insert x acc) l [].

(** [sorted(l, reverse=True)]: the list is reversed, sorted and reversed
    again, which keeps equal elements in their original order. *)
Definition sorted_reverse (l : list (float * float)) :=
  rev (sorted (rev l)).

Definition key_lt (a b : float * float) : Prop := PyFloat.lt (fst a) (fst b) = true.
Definition key_gt (a b : float * float) : Prop := PyFloat.lt (fst b) (fst a) = true.

(** Entries in strictly ascending, respectively strictly descending, order
    of price. *)
Definition ascending (l : list (float * float)) : Prop :=
  StronglySorted key_lt l.
Definition descending (l : list (float * float)) : Prop :=
  StronglySorted key_gt l.

End PySort.

(** ** Values found in a record of the feed *)

Inductive pyobj : Type :=
| PyFloatObj (f : float)    (* a float, or text that float() parses to [f] *)
| PyStr (s : string)        (* text that float() does not parse *)
| PyNone                    (* None *)
| Timestamp (t : Z)         (* pandas.Timestamp of the instant [t] *)
| Datetime (t : Z).         (* datetime.datetime of the instant [t] *)

(** ** orderbook.py *)

Record OrderBook : Type := mkOrderBook {
  security : string;
  bids : OrderedDict.t;
  offers : OrderedDict.t;
  last_update_time : pyobj
}.

(** Attribute assignments. *)
Definition set_bids (self : OrderBook) (d : OrderedDict.t) : OrderBook :=
  mkOrderBook (security self) d (offers self) (last_update_time self).
Definition set_offers (self : OrderBook) (d : OrderedDict.t) : OrderBook :=
  mkOrderBook (security self) (bids self) d (last_update_time self).
Definition set_last_update_time (self : OrderBook) (v : pyobj) : OrderBook :=
  mkOrderBook (security self) (bids self) (offers self) v.

(** A computation on an order book: the book after it, and a value or the
    exception raised. *)
Definition M (A : Type) : Type := OrderBook -> OrderBook * result A.

Definition ret {A} (a : A) : M A := fun self => (self, Ok a).
Definition bind {A B} (c : M A) (k : A -> M B) : M B :=
  fun self =>
    match c self with
    | (self', Ok a) => k a self'
    | (self', Raise e) => (self', Raise e)
    end.
Definition get : M OrderBook := fun self => (self, Ok self).
Definition put (s : OrderBook) : M unit := fun _ => (s, Ok tt).
Definition lift {A} (r : result A) : M A := fun self => (self, r).

Notation "'let!' x ':=' c 'in' k" := (bind c (fun x => k))
  (at level 10, x name, c at level 100, k at level 200).
Notation "c ;; k" := (bind c (fun _ => k))
  (at level 100, k at level 200, right associativity).

(** [for x in l: body(x)] *)
Fixpoint for_each {A} (body : A -> M unit) (l : list A) : M unit :=
  match l with
  | [] => ret tt
  | x :: l' => body x ;; for_each body l'
  end.

(** [OrderBook(security)] *)
Definition new (sec : string) : OrderBook :=
  mkOrderBook sec OrderedDict.empty OrderedDict.empty PyNone.

(** [all(p == 0.0 for p in prices)] *)
Definition all_zero (prices : list float) : bool :=
  forallb (fun p => PyFloat.eq p PyFloat.zero) prices.

(** The body of the loop of [update_bids]. *)
Definition update_bids_level (pq : float * float) : M unit :=
  let (price, qty) := pq in
  let! self := get in
  if PyFloat.gt price PyFloat.zero && PyFloat.gt qty PyFloat.zero then
    put (set_bids self (OrderedDict.setitem (bids self) price qty))
  else if PyFloat.gt price PyFloat.zero && PyFloat.eq qty PyFloat.zero then
    if OrderedDict.contains (bids self) price then
      let! d := lift (OrderedDict.delitem (bids self) price) in
      put (set_bids self d)
    else ret tt
  else ret tt.

Definition update_bids (prices quantities : list float) : M unit :=
  if all_zero prices then ret tt
  else
    for_each update_bids_level (combine prices quantities) ;;
    let! self := get in
    put (set_bids self
           (OrderedDict.of_items
              (PySort.sorted_reverse (OrderedDict.items (bids self))))).

(** The body of the loop of [update_offers]. *)
Definition update_offers_level (pq : float * float) : M unit :=
  let (price, qty) := pq in
  let! self := get in
  if PyFloat.gt price PyFloat.zero && PyFloat.gt qty PyFloat.zero then
    put (set_offers self (OrderedDict.setitem (offers self) price qty))
  else if PyFloat.gt price PyFloat.zero && PyFloat.eq qty PyFloat.zero then
    if OrderedDict.contains (offers self) price then
      let! d := lift (OrderedDict.delitem (offers self) price) in
      put (set_offers self d)
    else ret tt
  else ret tt.

Definition update_offers (prices quantities : list float) : M unit :=
  if all_zero prices then ret tt
  else
    for_each update_offers_level (combine prices quantities) ;;
    let! self := get in
    put (set_offers self
           (OrderedDict.of_items
              (PySort.sorted (OrderedDict.items (offers self))))).

(** The two updates read as functions on the entries of their side. *)

(** What one (price, quantity) pair does to the entries of a side. *)
Definition apply_level (d : OrderedDict.t) (pq : float * float) : OrderedDict.t :=
  let (price, qty) := pq in
  if PyFloat.gt price PyFloat.zero && PyFloat.gt qty PyFloat.zero then OrderedDict.setitem d price qty
  else if PyFloat.gt price PyFloat.zero && PyFloat.eq qty PyFloat.zero then
    if OrderedDict.contains d price then
      match OrderedDict.delitem d price with Ok d' => d' | Raise _ => d end
    else d
  else d.

(** The bid entries after [update_bids], the offer entries after
    [update_offers]. *)
Definition bids_after (prices quantities : list float) (d : OrderedDict.t) : OrderedDict.t :=
  OrderedDict.of_items (PySort.sorted_reverse
              (OrderedDict.items (fold_left apply_level (combine prices quantities) d))).
Definition offers_after (prices quantities : list float) (d : OrderedDict.t) : OrderedDict.t :=
  OrderedDict.of_items (PySort.sorted
              (OrderedDict.items (fold_left apply_level (combine prices quantities) d))).

Definition get_best_bid : M (option (float * float)) :=
  let! self := get in
  match OrderedDict.keys (bids self) with
  | [] => ret None
  | price :: _ =>
      let! q := lift (OrderedDict.getitem (bids self) price) in
      ret (Some (price, q))
  end.

Definition get_best_offer : M (option (float * float)) :=
  let! self := get in
  match OrderedDict.keys (offers self) with
  | [] => ret None
  | price :: _ =>
      let! q := lift (OrderedDict.getitem (offers self) price) in
      ret (Some (price, q))
  end.

Definition get_spread : M (option float) :=
  let! best_bid := get_best_bid in
  let! best_offer := get_best_offer in
  match best_bid, best_offer with
  | Some b, Some o => ret (Some (PyFloat.sub (fst o) (fst b)))
  | _, _ => ret None
  end.

(** ** run_data.py *)

(** A row of the data frame: its labels and their values. *)
Abbreviation Row := (gmap string pyobj).

(** [row[label]] *)
Definition row_getitem (row : Row) (label : string) : result pyobj :=
  match row !! label with
  | Some v => Ok v
  | None => Raise KeyError
  end.

(** [float(v)] *)
Definition py_float (v : pyobj) : result float :=
  match v with
  | PyFloatObj f => Ok f
  | PyStr _ => Raise ValueError
  | PyNone | Timestamp _ | Datetime _ => Raise TypeError
  end.

(** [float(row[label])] *)
Definition float_field (row : Row) (label : string) : result float :=
  match row_getitem row label with
  | Ok v => py_float v
  | Raise e => Raise e
  end.

(** A list display [[float(row[l1]), ..., float(row[ln])]], evaluated left
    to right. *)
Fixpoint float_fields (row : Row) (labels : list string) : result (list float) :=
  match labels with
  | [] => Ok []
  | l :: ls =>
      match float_field row l with
      | Raise e => Raise e
      | Ok f =>
          match float_fields row ls with
          | Raise e => Raise e
          | Ok fs => Ok (f :: fs)
          end
      end
  end.

Definition bid_price_labels : list string :=
  ["BI_price_1"; "BI_price_2"; "BI_price_3"; "BI_price_4"; "BI_price_5"]%string.
Definition bid_quantity_labels : list string :=
  ["BI_quantity_1"; "BI_quantity_2"; "BI_quantity_3"; "BI_quantity_4";
   "BI_quantity_5"]%string.
Definition offer_price_labels : list string :=
  ["OF_price_1"; "OF_price_2"; "OF_price_3"; "OF_price_4"; "OF_price_5"]%string.
Definition offer_quantity_labels : list string :=
  ["OF_quantity_1"; "OF_quantity_2"; "OF_quantity_3"; "OF_quantity_4";
   "OF_quantity_5"]%string.

(** [hasattr(v, 'to_pydatetime')] and [v.to_pydatetime()] *)
Definition has_to_pydatetime (v : pyobj) : bool :=
  match v with Timestamp _ => true | _ => false end.
Definition to_pydatetime (v : pyobj) : pyobj :=
  match v with Timestamp t => Datetime t | _ => v end.

Definition update_order_book (row : Row) : M unit :=
  let! bid_prices := lift (float_fields row bid_price_labels) in
  let! bid_quantities := lift (float_fields row bid_quantity_labels) in
  let! offer_prices := lift (float_fields row offer_price_labels) in
  let! offer_quantities := lift (float_fields row offer_quantity_labels) in
  update_bids bid_prices bid_quantities ;;
  update_offers offer_prices offer_quantities ;;
  let! time_value := lift (row_getitem row "time") in
  let! order_book := get in
  if has_to_pydatetime time_value then
    put (set_last_update_time order_book (to_pydatetime time_value))
  else
    put (set_last_update_time order_book time_value).

(** ** Vocabulary of the specification *)

(** The reconciliation of one index in the words of the specification:
    [d'] is the side mapping after the pair (price, qty) was applied to [d]. *)
Definition spec_reconciled
  (d : OrderedDict.t) (price qty : float) (d' : OrderedDict.t) : Prop :=
  (PyFloat.is_pos price -> PyFloat.is_pos qty ->
   d' = OrderedDict.setitem d price qty) /\
  (PyFloat.is_pos price -> PyFloat.eq qty PyFloat.zero = true ->
   if OrderedDict.contains d price
   then OrderedDict.delitem d price = Ok d'
   else d' = d) /\
  (PyFloat.eq price PyFloat.zero = true -> d' = d).

(** The indexes reconciled one after the other, first index first. *)
Fixpoint spec_reconciled_in_order
  (d : OrderedDict.t) (levels : list (float * float)) (d' : OrderedDict.t)
  : Prop :=
  match levels with
  | [] => d' = d
  | (price, qty) :: rest =>
      exists d1, spec_reconciled d price qty d1 /\
                 spec_reconciled_in_order d1 rest d'
  end.

(** A call of one of the two update methods, and a sequence of such calls. *)
Inductive call : Type :=
| UpdateBids (prices quantities : list float)
| UpdateOffers (prices quantities : list float).

Definition do_call (c : call) : M unit :=
  match c with
  | UpdateBids prices quantities => update_bids prices quantities
  | UpdateOffers prices quantities => update_offers prices quantities
  end.

Definition do_calls (cs : list call) : M unit := for_each do_call cs.

(** The twenty price and quantity labels of a record. *)
Definition level_labels : list string :=
  bid_price_labels ++ bid_quantity_labels ++
  offer_price_labels ++ offer_quantity_labels.

(** Reading the field [label] of [row] as a float fails. *)
Definition field_fails (row : Row) (label : string) : Prop :=
  exists e, float_field row label = Raise e.

(** Reading one of the required fields of [row] fails: one of the twenty
    price and quantity fields cannot be read as a float, or [time] is absent. *)
Definition extraction_fails (row : Row) : Prop :=
  (exists label, In label level_labels /\ field_fails row label) \/
  row_getitem row "time" = Raise KeyError.

(** The sides of a book as the updates leave them: prices that passed
    [> 0.0], none twice, bids in descending and offers in ascending order. *)
Definition book_inv (ob : OrderBook) : Prop :=
  OrderedDict.wf (bids ob) /\ PySort.descending (bids ob) /\
  OrderedDict.wf (offers ob) /\ PySort.ascending (offers ob).

(** Example data: the literals of the specification. *)
Definition f1_2000 : float := PyFloat.decimal 12000 10000.
Definition f1_2005 : float := PyFloat.decimal 12005 10000.
Definition f0_0005 : float := PyFloat.decimal 5 10000.
Definition f1_10 : float := PyFloat.decimal 110 100.
Definition f1_09 : float := PyFloat.decimal 109 100.
Definition f1_11 : float := PyFloat.decimal 111 100.
Definition f1_12 : float := PyFloat.decimal 112 100.

(** The binary64 value 0x1.0624dd2f1a800p-11, about 0.00049999999999994493. *)
Definition spread_1_2005_1_2000 : float :=
  S754_finite false 4611686018426880 (-63).

(** A book whose best bid is (1.2000, 10) and best offer (1.2005, 8). *)
Definition spread_book : OrderBook :=
  mkOrderBook "EURUSD"
    [(f1_2000, PyFloat.of_Z 10)] [(f1_2005, PyFloat.of_Z 8)] PyNone.

(** A record with every price and quantity field equal to 1.0 and no [time]
    field. *)
Definition row_without_time : Row :=
  list_to_map (map (fun l => (l, PyFloatObj (PyFloat.of_Z 1))) level_labels).

(** A record whose prices are all 0.0, stamped with the instant 7. *)
Definition row_all_zero : Row :=
  <["time" := Timestamp 7]>
    (list_to_map (map (fun l => (l, PyFloatObj PyFloat.zero)) level_labels)).

(** The scenario of the specification: a bid update, then an offer update. *)
Definition scenario_calls : list call :=
  [UpdateBids [f1_10; f1_09; PyFloat.zero; PyFloat.zero; PyFloat.zero]
     [PyFloat.of_Z 5; PyFloat.of_Z 3; PyFloat.zero; PyFloat.zero; PyFloat.zero];
   UpdateOffers [f1_11; f1_12; PyFloat.zero; PyFloat.zero; PyFloat.zero]
     [PyFloat.of_Z 4; PyFloat.of_Z 6; PyFloat.zero; PyFloat.zero; PyFloat.zero]].

(** A snapshot batch with the pair (price, qty) at index [i] and price 0.0
    everywhere else. *)
Definition single_level_prices (i : nat) (price : float) : list float :=
  <[i := price]> (replicate 5 PyFloat.zero).

(** ** run_data.py: the loops over rows and files *)

(** The registry [order_books]: a dict from security to its order book. *)
Abbreviation Books := (gmap string OrderBook).

(** What [run] ends with: the FileNotFoundError it raises, or the registry
    it returns. *)
Inductive run_outcome : Type :=
| FileNotFoundError
| Returned (order_books : Books).

Section RunData.

(** The world outside the program: [str()] on the values of the security
    column, the rows that [read_market_data] yields for a path in the order
    [iterrows] gives them (or the exception it raises), whether the data
    directory exists, and the sorted paths of its CSV files.  Printing is
    left out. *)
Variable py_str : pyobj -> string.
Variable read_market_data : string -> result (list Row).
Variable path_exists : string -> bool.
Variable sorted_csv_files : string -> list string.

(** The body of the loop of [process_file].  The book is updated in place:
    the registry holds it as [update_order_book] leaves it, also when that
    call raises. *)
Definition process_row (row : Row) (order_books : Books)
  : Books * result unit :=
  match row_getitem row "security" with
  | Raise e => (order_books, Raise e)
  | Ok v =>
      let security := py_str v in
      let order_books :=
        match order_books !! security with
        | None => <[security := new security]> order_books
        | Some _ => order_books
        end in
      match order_books !! security with
      | None => (order_books, Raise KeyError)
      | Some order_book =>
          let (order_book', r) := update_order_book row order_book in
          (<[security := order_book']> order_books, r)
      end
  end.

(** [for idx, row in df.iterrows(): ...] *)
Fixpoint process_rows (rows : list Row) (order_books : Books)
  : Books * result unit :=
  match rows with
  | [] => (order_books, Ok tt)
  | row :: rest =>
      match process_row row order_books with
      | (order_books', Ok _) => process_rows rest order_books'
      | (order_books', Raise e) => (order_books', Raise e)
      end
  end.

Definition process_file (file_path : string) (order_books : Books)
  : Books * result unit :=
  match read_market_data file_path with
  | Raise e => (order_books, Raise e)
  | Ok df => process_rows df order_books
  end.

(** The loop of [run] over the files: an exception of [process_file] is
    caught and reported, and the loop goes on with the registry as it is. *)
Fixpoint run_files (csv_files : list string) (order_books : Books) : Books :=
  match csv_files with
  | [] => order_books
  | csv_file :: rest =>
      run_files rest (fst (process_file csv_file order_books))
  end.

Definition run (data_dir : string) : run_outcome :=
  if negb (path_exists data_dir) then FileNotFoundError
  else
    match sorted_csv_files data_dir with
    | [] => Returned ∅
    | csv_files => Returned (run_files csv_files ∅)
    end.

End RunData.

(** ** Vocabulary of the further properties *)

(** What the pair [pq] does to the lookup of the price [k], [r] being the
    outcome of the lookup before. *)
Definition level_effect (k : float) (r : result float) (pq : float * float)
  : result float :=
  if PyFloat.same (fst pq) k then
    if PyFloat.gt (fst pq) PyFloat.zero && PyFloat.gt (snd pq) PyFloat.zero
    then Ok (snd pq)
    else if PyFloat.gt (fst pq) PyFloat.zero
            && PyFloat.eq (snd pq) PyFloat.zero
    then Raise KeyError
    else r
  else r.

(** Every stored price and every stored quantity passed [> 0.0]. *)
Definition levels_positive (d : OrderedDict.t) : Prop :=
  Forall (fun kv => PyFloat.is_pos (fst kv) /\ PyFloat.is_pos (snd kv)) d.

(** A book as the updates leave it, filed under the security [sec]. *)
Definition book_ok (sec : string) (ob : OrderBook) : Prop :=
  security ob = sec /\ book_inv ob /\
  levels_positive (bids ob) /\ levels_positive (offers ob).

(** Example rows: the scenario of the specification for EURUSD, stamped 1,
    and the same record without its first bid price. *)
Definition scenario_levels : list (string * pyobj) :=
  zip level_labels
    (PyFloatObj <$>
       [f1_10; f1_09; PyFloat.zero; PyFloat.zero; PyFloat.zero;
        PyFloat.of_Z 5; PyFloat.of_Z 3; PyFloat.zero; PyFloat.zero;
        PyFloat.zero;
        f1_11; f1_12; PyFloat.zero; PyFloat.zero; PyFloat.zero;
        PyFloat.of_Z 4; PyFloat.of_Z 6; PyFloat.zero; PyFloat.zero;
        PyFloat.zero]).

Definition scenario_row : Row :=
  <["security"%string := PyStr "EURUSD"]>
    (<["time"%string := Timestamp 1]> (list_to_map scenario_levels)).

Definition broken_row : Row := delete "BI_price_1"%string scenario_row.

(** The registry before the book of the row is updated: the security is
    filed on first sight. *)
Definition filed (security : string) (order_books : Books) : Books :=
  match order_books !! security with
  | None => <[security := new security]> order_books
  | Some _ => order_books
  end.

(** An example data directory: [a.csv] holds the scenario row followed by
    the broken one, any other file cannot be read. *)
Definition example_read (file_path : string) : result (list Row) :=
  if String.eqb file_path "a.csv" then Ok [scenario_row; broken_row]
  else Raise ValueError.

Definition example_files (data_dir : string) : list string :=
  ["a.csv"; "b.csv"]%string.

(** [str()] on the example rows: text is itself. *)
Definition str_of_text (v : pyobj) : string :=
  match v with PyStr s => s | _ => "?"%string end.

(** * Properties *)

(** ** Facts about float comparison *)

Module PyFloatFacts.
Import PyFloat.

Lemma positive_inv a :
  is_pos a ->
  a = S754_infinity false \/ exists m e, a = S754_finite false m e.
Proof.
  unfold is_pos, gt, SFltb.
  destruct a as [s|[|]| |[|] m e]; simpl; try discriminate; eauto.
Qed.

Lemma same_true a b : same a b = true <-> a = b.
Proof.
  split.
  - destruct a as [s1|s1| |s1 m1 e1], b as [s2|s2| |s2 m2 e2];
      simpl; try discriminate; auto.
    + intros H. apply Bool.eqb_prop in H. now subst.
    + intros H. apply Bool.eqb_prop in H. now subst.
    + intros H. apply andb_true_iff in H as [H He].
      apply andb_true_iff in H as [Hs Hm].
      apply Bool.eqb_prop in Hs. apply Pos.eqb_eq in Hm.
      apply Z.eqb_eq in He. now subst.
  - intros <-. destruct a as [s|s| |s m e]; simpl; auto using eqb_reflx.
    now rewrite eqb_reflx, Pos.eqb_refl, Z.eqb_refl.
Qed.

Lemma datum_dec (a b : float) : {a = b} + {a <> b}.
Proof.
  destruct (same a b) eqn:E.
  - left. now apply same_true.
  - right. intros H. apply same_true in H. congruence.
Qed.

Lemma positive_not_nan a : is_pos a -> is_nan a = false.
Proof. intros H. destruct (positive_inv a H) as [->|(m & e & ->)]; reflexivity. Qed.

Lemma positive_not_zero a : is_pos a -> eq a zero = false.
Proof. intros H. destruct (positive_inv a H) as [->|(m & e & ->)]; reflexivity. Qed.

Lemma positive_not_negative a : is_pos a -> lt a zero = false.
Proof. intros H. destruct (positive_inv a H) as [->|(m & e & ->)]; reflexivity. Qed.

Lemma negative_not_positive a : is_neg a -> gt a zero = false.
Proof.
  unfold is_neg, lt, gt, SFltb.
  destruct a as [s|[|]| |[|] m e]; simpl; try discriminate; auto.
Qed.

Lemma negative_not_zero a : is_neg a -> eq a zero = false.
Proof.
  unfold is_neg, lt, eq, SFltb, SFeqb.
  destruct a as [s|[|]| |[|] m e]; simpl; try discriminate; auto.
Qed.

(** Against a price that passed [> 0.0], [==] is equality of the datum. *)
Lemma eq_positive a p : is_pos p -> eq a p = true <-> a = p.
Proof.
  intros Hp. unfold eq, SFeqb.
  destruct (positive_inv p Hp) as [->|(m & e & ->)].
  - destruct a as [s|[|]| |[|] m e]; simpl; split; congruence.
  - destruct a as [s|[|]| |[|] m' e']; simpl; try (split; congruence).
    fold (Pos.compare m' m).
    destruct (Z.compare_spec e' e) as [->| |]; try (split; [discriminate|]).
    + destruct (Pos.compare_spec m' m) as [->| |];
        split; try discriminate; auto; intros [= ->]; lia.
    + intros [= -> ->]. lia.
    + intros [= -> ->]. lia.
Qed.

Lemma eq_refl_positive p : is_pos p -> eq p p = true.
Proof. intros H. now apply eq_positive. Qed.

Lemma lt_irrefl p : lt p p = false.
Proof.
  unfold lt, SFltb.
  destruct p as [s|[|]| |[|] m e]; simpl; auto;
    fold (Pos.compare m m); now rewrite Z.compare_refl, Pos.compare_refl.
Qed.

Lemma lt_trans a b c :
  is_pos a -> is_pos b -> is_pos c ->
  lt a b = true -> lt b c = true -> lt a c = true.
Proof.
  intros Ha Hb Hc.
  destruct (positive_inv a Ha) as [->|(ma & ea & ->)];
    destruct (positive_inv b Hb) as [->|(mb & eb & ->)];
    destruct (positive_inv c Hc) as [->|(mc & ec & ->)];
    unfold lt, SFltb; simpl; try discriminate; auto.
  fold (Pos.compare ma mb) (Pos.compare mb mc) (Pos.compare ma mc).
  destruct (Z.compare_spec ea eb), (Z.compare_spec eb ec),
    (Z.compare_spec ea ec); subst; try discriminate; try lia; auto.
  destruct (Pos.compare_spec ma mb), (Pos.compare_spec mb mc),
    (Pos.compare_spec ma mc); subst; try discriminate; try lia; auto.
Qed.

Lemma lt_asym a b :
  is_pos a -> is_pos b -> lt a b = true -> lt b a = false.
Proof.
  intros Ha Hb Hab. destruct (lt b a) eqn:Hba; auto.
  pose proof (lt_trans a b a Ha Hb Ha Hab Hba) as H.
  now rewrite lt_irrefl in H.
Qed.

Lemma lt_total a b :
  is_pos a -> is_pos b -> a <> b -> lt a b = true \/ lt b a = true.
Proof.
  intros Ha Hb.
  destruct (positive_inv a Ha) as [->|(ma & ea & ->)];
    destruct (positive_inv b Hb) as [->|(mb & eb & ->)];
    unfold lt, SFltb; simpl; auto.
  fold (Pos.compare ma mb) (Pos.compare mb ma). intros Hne.
    destruct (Z.compare_spec ea eb), (Z.compare_spec eb ea);
      subst; try lia; auto.
    destruct (Pos.compare_spec ma mb), (Pos.compare_spec mb ma);
      subst; try lia; auto; congruence.
Qed.

Lemma lt_not_eq a b : is_pos b -> lt a b = true -> a <> b.
Proof. intros _ H ->. now rewrite lt_irrefl in H. Qed.

End PyFloatFacts.

(** ** Facts about the ordered dict *)

Module DictFacts.
Import PyFloat PyFloatFacts OrderedDict.

#[local] Arguments keys !d /.

Lemma key_match_refl k : key_match k k = true.
Proof.
  unfold key_match. now rewrite (proj2 (same_true k k) eq_refl).
Qed.

Lemma key_match_pos k p : is_pos p -> key_match k p = true <-> k = p.
Proof.
  intros Hp. unfold key_match. rewrite orb_true_iff, same_true.
  rewrite (eq_positive k p Hp). tauto.
Qed.

Lemma key_match_neq k p : is_pos p -> k <> p -> key_match k p = false.
Proof.
  intros Hp Hne. destruct (key_match k p) eqn:E; auto.
  apply key_match_pos in E; auto. contradiction.
Qed.

Lemma contains_In d p : is_pos p -> contains d p = true <-> In p (keys d).
Proof.
  intros Hp. induction d as [|[k w] d IH]; simpl.
  - split; [discriminate|tauto].
  - rewrite orb_true_iff, IH, (key_match_pos k p Hp). tauto.
Qed.

Lemma contains_false_notin d p :
  is_pos p -> contains d p = false -> ~ In p (keys d).
Proof.
  intros Hp H Hin. apply (contains_In d p Hp) in Hin. congruence.
Qed.

Lemma setitem_absent d p q :
  is_pos p -> ~ In p (keys d) -> setitem d p q = d ++ [(p, q)].
Proof.
  intros Hp. induction d as [|[k w] d IH]; simpl; intros Hn; auto.
  rewrite key_match_neq by tauto. now rewrite IH by tauto.
Qed.

Lemma keys_setitem d p q :
  is_pos p ->
  keys (setitem d p q) = if contains d p then keys d else keys d ++ [p].
Proof.
  intros Hp. induction d as [|[k w] d IH]; simpl; auto.
  destruct (key_match k p) eqn:E; simpl; auto.
  rewrite IH. now destruct (contains d p).
Qed.

Lemma length_setitem d p q :
  length (setitem d p q) =
  if contains d p then length d else S (length d).
Proof.
  induction d as [|[k w] d IH]; simpl; auto.
  destruct (key_match k p) eqn:E; simpl; auto.
  rewrite IH. now destruct (contains d p).
Qed.

Lemma getitem_setitem d p q : is_pos p -> getitem (setitem d p q) p = Ok q.
Proof.
  intros Hp. induction d as [|[k w] d IH]; simpl.
  - now rewrite key_match_refl.
  - destruct (key_match k p) eqn:E; simpl; now rewrite E.
Qed.

Lemma getitem_setitem_other d p q k :
  is_pos p -> is_pos k -> k <> p ->
  getitem (setitem d p q) k = getitem d k.
Proof.
  intros Hp Hk Hne. induction d as [|[k' w] d IH]; simpl.
  - rewrite key_match_neq; auto.
  - destruct (key_match k' p) eqn:E; simpl.
    + apply key_match_pos in E; auto. subst k'.
      rewrite key_match_neq; auto.
    + now rewrite IH.
Qed.

Lemma setitem_same d p q :
  is_pos p -> getitem d p = Ok q -> setitem d p q = d.
Proof.
  intros Hp. induction d as [|[k w] d IH]; simpl; try discriminate.
  destruct (key_match k p) eqn:E.
  - now intros [= ->].
  - intros H. now rewrite IH.
Qed.

(** [del d[p]] succeeds exactly on a key of [d]. *)
Lemma delitem_present d p :
  contains d p = true -> exists d', delitem d p = Ok d'.
Proof.
  induction d as [|[k w] d IH]; simpl; try discriminate.
  destruct (key_match k p); simpl; eauto.
  intros H. destruct (IH H) as [d' ->]. eauto.
Qed.

Lemma delitem_keys d p d' :
  is_pos p -> List.NoDup (keys d) -> delitem d p = Ok d' ->
  ~ In p (keys d') /\
  (forall k, k <> p -> In k (keys d') <-> In k (keys d)) /\
  S (length d') = length d /\
  List.NoDup (keys d').
Proof.
  intros Hp. revert d'. induction d as [|[k w] d IH]; simpl; intros d' Hnd;
    try discriminate.
  apply List.NoDup_cons_iff in Hnd as [Hnotin Hnd'].
  destruct (key_match k p) eqn:E.
  - intros [= <-]. apply key_match_pos in E; auto. subst k.
    split; [assumption|]. split; [|split; [reflexivity|assumption]].
    intros k Hk. split; [now right|]. intros [Heq|Hin]; [congruence|auto].
  - destruct (delitem d p) as [d''|] eqn:Hd; try discriminate.
    intros [= <-]. destruct (IH d'' Hnd' eq_refl) as (H1 & H2 & H3 & H4).
    assert (Hkp : k <> p) by (intros ->; now rewrite key_match_refl in E).
    simpl. split; [|split; [|split]].
    + intros [Heq|Hin]; auto.
    + intros k0 Hk0. specialize (H2 k0 Hk0). tauto.
    + congruence.
    + apply List.NoDup_cons_iff. split; auto.
      intros Hin. apply Hnotin. now apply (H2 k Hkp).
Qed.

Lemma getitem_delitem_other d p d' k :
  is_pos p -> is_pos k -> k <> p -> delitem d p = Ok d' ->
  getitem d' k = getitem d k.
Proof.
  intros Hp Hk Hne. revert d'.
  induction d as [|[k' w] d IH]; simpl; intros d'; try discriminate.
  destruct (key_match k' p) eqn:E.
  - intros [= <-]. apply key_match_pos in E; auto. subst k'.
    now rewrite key_match_neq.
  - destruct (delitem d p) as [d''|] eqn:Hd; try discriminate.
    intros [= <-]. simpl. now rewrite (IH d'' eq_refl).
Qed.

Lemma wf_empty : wf empty.
Proof. split; constructor. Qed.

Lemma wf_setitem d p q : is_pos p -> wf d -> wf (setitem d p q).
Proof.
  intros Hp [Hnd Hpos]. unfold wf. rewrite keys_setitem by auto.
  destruct (contains d p) eqn:E; [now split|].
  split.
  - apply List.NoDup_app; auto.
    + constructor; [intros []|constructor].
    + intros x Hx [<-|[]]. revert Hx. now apply contains_false_notin.
  - apply Forall_app. split; auto.
Qed.

Lemma wf_delitem d p d' : is_pos p -> wf d -> delitem d p = Ok d' -> wf d'.
Proof.
  intros Hp [Hnd Hpos] Hd.
  destruct (delitem_keys d p d' Hp Hnd Hd) as (Hn & Hk & _ & Hnd').
  split; auto. rewrite List.Forall_forall in *. intros k Hin.
  apply Hpos. destruct (datum_dec k p) as [->|Hne]; [contradiction|].
  now apply Hk.
Qed.

Lemma wf_Permutation d d' : Permutation d d' -> wf d -> wf d'.
Proof.
  intros HP [Hnd Hpos]. assert (Permutation (keys d) (keys d'))
    by now apply Permutation_map.
  split.
  - eapply Permutation_NoDup; eauto.
  - eapply Permutation_Forall; eauto.
Qed.

(** Building a dict from entries without repeated keys keeps them as they
    are. *)
Lemma of_items_wf l : wf l -> of_items l = l.
Proof.
  unfold of_items. intros H.
  enough (G : forall l acc, wf (acc ++ l) ->
            fold_left (fun d kv => setitem d (fst kv) (snd kv)) l acc
            = acc ++ l) by (now apply (G l empty)).
  clear. induction l as [|[k v] l IH]; intros acc Hwf; simpl.
  - now rewrite app_nil_r.
  - assert (Hwf' : wf ((acc ++ [(k, v)]) ++ l))
      by now rewrite <- app_assoc.
    destruct Hwf as [Hnd Hpos]. unfold keys in Hnd, Hpos.
    rewrite map_app in Hnd, Hpos. simpl in Hnd, Hpos.
    apply List.NoDup_remove_2 in Hnd.
    apply Forall_app in Hpos as [_ Hpos]. inversion Hpos; subst.
    rewrite setitem_absent; auto.
    + rewrite IH; auto. now rewrite <- app_assoc.
    + intros Hin. apply Hnd. apply in_or_app. now left.
Qed.

End DictFacts.

(** ** Facts about sorting the entries *)

Module SortFacts.
Import PyFloat PyFloatFacts OrderedDict DictFacts PySort.

#[local] Arguments keys !d /.

Lemma tuple_lt_keys a b :
  is_pos (fst b) -> fst a <> fst b -> tuple_lt a b = lt (fst a) (fst b).
Proof.
  intros Hb Hne. unfold tuple_lt.
  destruct (eq (fst a) (fst b)) eqn:E; auto.
  apply eq_positive in E; auto. contradiction.
Qed.

Lemma insert_Permutation x l : Permutation (insert x l) (x :: l).
Proof.
  induction l as [|y l IH]; simpl; auto.
  destruct (tuple_lt x y); auto.
  rewrite IH. apply perm_swap.
Qed.

Lemma fold_insert_Permutation l acc :
  Permutation (fold_left (fun acc x => insert x acc) l acc) (acc ++ l).
Proof.
  revert acc. induction l as [|x l IH]; intros acc; simpl.
  - now rewrite app_nil_r.
  - rewrite IH, insert_Permutation. apply Permutation_middle.
Qed.

Lemma sorted_Permutation l : Permutation (sorted l) l.
Proof. apply (fold_insert_Permutation l []). Qed.

Lemma sorted_reverse_Permutation l : Permutation (sorted_reverse l) l.
Proof.
  unfold sorted_reverse.
  now rewrite <- Permutation_rev, sorted_Permutation, <- Permutation_rev.
Qed.

Lemma insert_ascending x l :
  wf (x :: l) -> ascending l -> ascending (insert x l).
Proof.
  unfold ascending. intros [Hnd Hpos] Hs. simpl in Hnd, Hpos.
  apply List.NoDup_cons_iff in Hnd as [Hx _].
  apply List.Forall_cons_iff in Hpos as [Hpx Hpos].
  induction Hs as [|y l Hs IH Hy]; simpl.
  - repeat constructor.
  - simpl in Hx, Hpos.
    apply List.Forall_cons_iff in Hpos as [Hpy Hpos].
    assert (Hne : fst x <> fst y) by (intros E; apply Hx; now left).
    rewrite tuple_lt_keys by auto.
    destruct (lt (fst x) (fst y)) eqn:Hlt.
    + constructor; [now constructor|].
      constructor; [exact Hlt|].
      rewrite List.Forall_forall in *. intros z Hz.
      unfold key_lt. apply lt_trans with (fst y); auto.
      * apply Hpos. now apply in_map.
      * now apply Hy.
    + constructor; [apply IH; tauto|].
      rewrite (insert_Permutation x l). constructor; auto.
      destruct (lt_total (fst x) (fst y)) as [H|H]; auto. congruence.
Qed.

Lemma fold_insert_ascending l acc :
  wf (acc ++ l) -> ascending acc ->
  ascending (fold_left (fun acc x => insert x acc) l acc).
Proof.
  revert acc. induction l as [|x l IH]; intros acc Hwf Hs; simpl; auto.
  assert (Hwf' : wf (x :: acc ++ l))
    by (eapply wf_Permutation; [|exact Hwf];
        symmetry; apply Permutation_middle).
  apply IH.
  - eapply wf_Permutation; [|exact Hwf'].
    change (x :: acc ++ l) with ((x :: acc) ++ l).
    apply Permutation_app_tail. symmetry. apply insert_Permutation.
  - apply insert_ascending; auto.
    destruct Hwf' as [Hnd Hpos]. simpl in Hnd, Hpos.
    unfold keys in Hnd, Hpos. rewrite map_app in Hnd, Hpos.
    apply List.NoDup_cons_iff in Hnd as [Hx Hnd].
    apply List.Forall_cons_iff in Hpos as [Hpx Hpos].
    apply Forall_app in Hpos as [Hpos _].
    split; simpl.
    + apply List.NoDup_cons_iff. split.
      * intros Hin. apply Hx. apply in_or_app. now left.
      * now apply List.NoDup_app_remove_r in Hnd.
    + now constructor.
Qed.

Lemma sorted_ascending l : wf l -> ascending (sorted l).
Proof.
  intros H. apply (fold_insert_ascending l []); auto. constructor.
Qed.

Lemma StronglySorted_snoc {A} (R : A -> A -> Prop) l x :
  StronglySorted R l -> Forall (fun y => R y x) l ->
  StronglySorted R (l ++ [x]).
Proof.
  induction 1 as [|y l Hs IH Hy]; simpl; intros Hall.
  - repeat constructor.
  - apply List.Forall_cons_iff in Hall as [Hyx Hall].
    constructor; auto. apply Forall_app. split; auto.
Qed.

Lemma StronglySorted_snoc_inv {A} (R : A -> A -> Prop) l x :
  StronglySorted R (l ++ [x]) ->
  StronglySorted R l /\ Forall (fun y => R y x) l.
Proof.
  induction l as [|y l IH]; simpl; intros Hs.
  - split; constructor.
  - inversion Hs as [|? ? Hs' Hall]; subst.
    destruct (IH Hs') as [H1 H2].
    apply Forall_app in Hall as [Hl Hx].
    split; constructor; auto. now inversion Hx.
Qed.

Lemma StronglySorted_rev {A} (R : A -> A -> Prop) l :
  StronglySorted R l -> StronglySorted (fun a b => R b a) (rev l).
Proof.
  induction 1 as [|y l Hs IH Hy]; simpl.
  - constructor.
  - apply StronglySorted_snoc; auto.
    rewrite List.Forall_forall in *. intros z Hz. apply Hy.
    now apply in_rev.
Qed.

Lemma ascending_rev l : ascending l -> descending (rev l).
Proof. apply StronglySorted_rev. Qed.

Lemma descending_rev l : descending l -> ascending (rev l).
Proof. apply (StronglySorted_rev key_gt). Qed.

Lemma sorted_reverse_descending l : wf l -> descending (sorted_reverse l).
Proof.
  intros H. apply ascending_rev, sorted_ascending.
  eapply wf_Permutation; [|exact H]. apply Permutation_rev.
Qed.

Lemma insert_last x l :
  Forall (fun y => tuple_lt x y = false) l -> insert x l = l ++ [x].
Proof.
  induction 1 as [|y l Hy _ IH]; simpl; auto.
  now rewrite Hy, IH.
Qed.

(** Sorting entries that are in order already changes nothing. *)
Lemma sorted_of_ascending l :
  Forall is_pos (keys l) -> ascending l -> sorted l = l.
Proof.
  unfold sorted. induction l as [|x l IH] using rev_ind; intros Hpos Hs; auto.
  rewrite fold_left_app. simpl.
  unfold keys in Hpos. rewrite map_app in Hpos.
  apply Forall_app in Hpos as [Hpos Hpx].
  apply List.Forall_cons_iff in Hpx as [Hpx _].
  apply StronglySorted_snoc_inv in Hs as [Hs Hall].
  rewrite IH by auto. apply insert_last.
  rewrite List.Forall_forall in *. intros y Hy.
  assert (Hpy : is_pos (fst y)) by (apply Hpos; now apply in_map).
  specialize (Hall y Hy). unfold key_lt in Hall.
  rewrite tuple_lt_keys; auto.
  - now apply lt_asym.
  - intros E. rewrite E, lt_irrefl in Hall. discriminate.
Qed.

Lemma sorted_reverse_of_descending l :
  Forall is_pos (keys l) -> descending l -> sorted_reverse l = l.
Proof.
  intros Hpos Hs. unfold sorted_reverse.
  rewrite sorted_of_ascending.
  - apply rev_involutive.
  - unfold keys. rewrite map_rev. now apply Forall_rev.
  - now apply descending_rev.
Qed.

Lemma StronglySorted_keys (R : float -> float -> Prop) l :
  StronglySorted (fun a b => R (fst a) (fst b)) l ->
  StronglySorted R (keys l).
Proof.
  induction 1 as [|y l Hs IH Hy]; simpl; constructor; auto.
  apply List.Forall_forall. intros k Hk.
  apply in_map_iff in Hk as (z & <- & Hz).
  rewrite List.Forall_forall in Hy. now apply Hy.
Qed.

End SortFacts.

(** ** The update loops as folds over the entries *)

Module BookFacts.
Import PyFloat PyFloatFacts OrderedDict DictFacts PySort SortFacts.

Lemma set_bids_id ob : set_bids ob (bids ob) = ob.
Proof. now destruct ob. Qed.

Lemma set_offers_id ob : set_offers ob (offers ob) = ob.
Proof. now destruct ob. Qed.

Lemma update_bids_level_eq pq ob :
  update_bids_level pq ob = (set_bids ob (apply_level (bids ob) pq), Ok tt).
Proof.
  destruct pq as [price qty]. unfold update_bids_level, apply_level.
  unfold bind, get, put, ret, lift.
  destruct (gt price zero && gt qty zero); auto.
  destruct (gt price zero && eq qty zero);
    try (now rewrite set_bids_id).
  destruct (contains (bids ob) price) eqn:E;
    try (now rewrite set_bids_id).
  destruct (delitem_present _ _ E) as [d' ->]. reflexivity.
Qed.

Lemma update_offers_level_eq pq ob :
  update_offers_level pq ob
  = (set_offers ob (apply_level (offers ob) pq), Ok tt).
Proof.
  destruct pq as [price qty]. unfold update_offers_level, apply_level.
  unfold bind, get, put, ret, lift.
  destruct (gt price zero && gt qty zero); auto.
  destruct (gt price zero && eq qty zero);
    try (now rewrite set_offers_id).
  destruct (contains (offers ob) price) eqn:E;
    try (now rewrite set_offers_id).
  destruct (delitem_present _ _ E) as [d' ->]. reflexivity.
Qed.

Lemma for_each_bids l ob :
  for_each update_bids_level l ob
  = (set_bids ob (fold_left apply_level l (bids ob)), Ok tt).
Proof.
  revert ob. induction l as [|pq l IH]; intros ob; simpl.
  - unfold ret. now rewrite set_bids_id.
  - unfold bind. rewrite update_bids_level_eq, IH. reflexivity.
Qed.

Lemma for_each_offers l ob :
  for_each update_offers_level l ob
  = (set_offers ob (fold_left apply_level l (offers ob)), Ok tt).
Proof.
  revert ob. induction l as [|pq l IH]; intros ob; simpl.
  - unfold ret. now rewrite set_offers_id.
  - unfold bind. rewrite update_offers_level_eq, IH. reflexivity.
Qed.

Lemma update_bids_eq prices quantities ob :
  update_bids prices quantities ob =
  if all_zero prices then (ob, Ok tt)
  else (set_bids ob (bids_after prices quantities (bids ob)), Ok tt).
Proof.
  unfold update_bids. destruct (all_zero prices); auto.
  unfold bind at 1. rewrite for_each_bids. reflexivity.
Qed.

Lemma update_offers_eq prices quantities ob :
  update_offers prices quantities ob =
  if all_zero prices then (ob, Ok tt)
  else (set_offers ob (offers_after prices quantities (offers ob)), Ok tt).
Proof.
  unfold update_offers. destruct (all_zero prices); auto.
  unfold bind at 1. rewrite for_each_offers. reflexivity.
Qed.

Lemma wf_apply_level d pq : wf d -> wf (apply_level d pq).
Proof.
  destruct pq as [price qty]. unfold apply_level. intros Hwf.
  destruct (gt price zero) eqn:Hp; simpl; auto.
  destruct (gt qty zero); [now apply wf_setitem|].
  destruct (eq qty zero); auto.
  destruct (contains d price); auto.
  destruct (delitem d price) as [d'|] eqn:Hd; auto.
  now apply (wf_delitem d price d').
Qed.

Lemma wf_fold_apply_level l d : wf d -> wf (fold_left apply_level l d).
Proof.
  revert d. induction l as [|pq l IH]; intros d Hwf; simpl; auto.
  apply IH. now apply wf_apply_level.
Qed.

Lemma bids_after_sorted prices quantities d :
  wf d ->
  bids_after prices quantities d
  = sorted_reverse (fold_left apply_level (combine prices quantities) d)
  /\ wf (bids_after prices quantities d)
  /\ descending (bids_after prices quantities d).
Proof.
  intros Hwf. unfold bids_after, items.
  pose proof (wf_fold_apply_level (combine prices quantities) d Hwf) as H.
  assert (Hs : wf (sorted_reverse
                     (fold_left apply_level (combine prices quantities) d)))
    by (eapply wf_Permutation; [|exact H];
        symmetry; apply sorted_reverse_Permutation).
  rewrite of_items_wf by exact Hs.
  repeat split; try apply Hs. now apply sorted_reverse_descending.
Qed.

Lemma offers_after_sorted prices quantities d :
  wf d ->
  offers_after prices quantities d
  = sorted (fold_left apply_level (combine prices quantities) d)
  /\ wf (offers_after prices quantities d)
  /\ ascending (offers_after prices quantities d).
Proof.
  intros Hwf. unfold offers_after, items.
  pose proof (wf_fold_apply_level (combine prices quantities) d Hwf) as H.
  assert (Hs : wf (sorted
                     (fold_left apply_level (combine prices quantities) d)))
    by (eapply wf_Permutation; [|exact H];
        symmetry; apply sorted_Permutation).
  rewrite of_items_wf by exact Hs.
  repeat split; try apply Hs. now apply sorted_ascending.
Qed.

Lemma key_lookup_first k v d : getitem ((k, v) :: d) k = Ok v.
Proof. simpl. now rewrite key_match_refl. Qed.

Lemma get_best_bid_head ob :
  get_best_bid ob = (ob, Ok (head (bids ob))).
Proof.
  unfold get_best_bid, bind, get, ret, lift.
  destruct ob as [sec [|[bp bq] bs] os time]; unfold keys; simpl;
    rewrite ?key_match_refl; reflexivity.
Qed.

Lemma get_best_offer_head ob :
  get_best_offer ob = (ob, Ok (head (offers ob))).
Proof.
  unfold get_best_offer, bind, get, ret, lift.
  destruct ob as [sec bs [|[op oq] os] time]; unfold keys; simpl;
    rewrite ?key_match_refl; reflexivity.
Qed.

Lemma get_spread_eq ob :
  get_spread ob =
  (ob, Ok match head (bids ob), head (offers ob) with
          | Some b, Some o => Some (sub (fst o) (fst b))
          | _, _ => None
          end).
Proof.
  unfold get_spread, bind. rewrite get_best_bid_head, get_best_offer_head.
  destruct (head (bids ob)), (head (offers ob)); reflexivity.
Qed.

End BookFacts.

(** * The claims of the specification *)

Import PyFloat PyFloatFacts OrderedDict DictFacts PySort SortFacts BookFacts.

(** ** The scenarios of the specification, evaluated *)

(** The literals are the binary64 values Python reads them as:
    1.2005 is 0x1.3353f7ced9168p+0 and 1.2 is 0x1.3333333333333p+0. *)
Example decimal_literals :
  f1_2005 = S754_finite false 5406571352658280 (-52) /\
  f1_2000 = S754_finite false 5404319552844595 (-52) /\
  f0_0005 = S754_finite false 4611686018427388 (-63).
Proof. repeat split. Qed.

Example scenario_book :
  do_calls scenario_calls (new "EURUSD")
  = (mkOrderBook "EURUSD"
       [(f1_10, of_Z 5); (f1_09, of_Z 3)]
       [(f1_11, of_Z 4); (f1_12, of_Z 6)] PyNone, Ok tt).
Proof. reflexivity. Qed.

Example scenario_best_bid_removed :
  (update_bids [f1_10; zero; zero; zero; zero] [zero; zero; zero; zero; zero] ;;
   get_best_bid)
    (mkOrderBook "EURUSD"
       [(f1_10, of_Z 5); (f1_09, of_Z 3)]
       [(f1_11, of_Z 4); (f1_12, of_Z 6)] PyNone)
  = (mkOrderBook "EURUSD"
       [(f1_09, of_Z 3)]
       [(f1_11, of_Z 4); (f1_12, of_Z 6)] PyNone, Ok (Some (f1_09, of_Z 3))).
Proof. reflexivity. Qed.

(** Bids arriving in ascending order are stored in descending order. *)
Example bids_are_reordered :
  bids (fst (update_bids [f1_09; f1_10; f1_12; f1_11; zero]
               [of_Z 1; of_Z 2; of_Z 3; of_Z 4; zero] (new "EURUSD")))
  = [(f1_12, of_Z 3); (f1_11, of_Z 4); (f1_10, of_Z 2); (f1_09, of_Z 1)].
Proof. reflexivity. Qed.

(** C3: with prices = [0, 0, 0, 0, 0] and any quantities, [update_bids] and
    [update_offers] return without modifying the order book: both side
    mappings, the security identifier and [last_update_time] are what they
    were before the call. *)
Theorem update_all_zero_prices_is_noop (ob : OrderBook) (quantities : list float) :
  update_bids [zero; zero; zero; zero; zero] quantities ob = (ob, Ok tt) /\
  update_offers [zero; zero; zero; zero; zero] quantities ob = (ob, Ok tt).
Proof.
  split; [rewrite update_bids_eq | rewrite update_offers_eq]; reflexivity.
Qed.

(** C7: [update_bids] never modifies the offer mapping and [update_offers]
    never modifies the bid mapping; neither modifies the security identifier
    or [last_update_time]. *)
Theorem update_side_frame (ob : OrderBook) (prices quantities : list float) :
  (offers (fst (update_bids prices quantities ob)) = offers ob /\
   security (fst (update_bids prices quantities ob)) = security ob /\
   last_update_time (fst (update_bids prices quantities ob))
   = last_update_time ob) /\
  (bids (fst (update_offers prices quantities ob)) = bids ob /\
   security (fst (update_offers prices quantities ob)) = security ob /\
   last_update_time (fst (update_offers prices quantities ob))
   = last_update_time ob).
Proof.
  rewrite update_bids_eq, update_offers_eq.
  destruct (all_zero prices); simpl; auto.
Qed.

(** C5: [get_spread] returns the best offer price minus the best bid price
    when both sides hold at least one level, and None, neither zero nor an
    error, when either side is empty; the book is not modified. *)
Theorem get_spread_spec (ob : OrderBook) :
  get_spread ob =
  (ob, Ok match keys (bids ob), keys (offers ob) with
          | best_bid :: _, best_offer :: _ => Some (sub best_offer best_bid)
          | _, _ => None
          end).
Proof.
  rewrite get_spread_eq.
  now destruct ob as [sec [|[bp bq] bs] [|[op oq] os] time].
Qed.

Lemma eq_zero_not_gt q : eq q zero = true -> gt q zero = false.
Proof.
  unfold eq, gt, SFeqb, SFltb.
  destruct q as [s|[|]| |[|] m e]; simpl; try discriminate; auto.
Qed.

Lemma level_skipped_on_negative ob price qty :
  is_neg price \/ (is_pos price /\ is_neg qty) ->
  apply_level (bids ob) (price, qty) = bids ob /\
  apply_level (offers ob) (price, qty) = offers ob.
Proof.
  unfold apply_level. intros [Hn|[Hp Hn]].
  - now rewrite (negative_not_positive _ Hn).
  - rewrite (negative_not_positive _ Hn), (negative_not_zero _ Hn).
    now rewrite !andb_false_r.
Qed.

(** C10: [update_bids] and [update_offers] are total over all float inputs:
    they never raise; an index whose price is negative, or whose price is
    positive and whose quantity is negative, leaves the book as it is at that
    index; and a prices list that contains a negative value does not pass
    the all-zero guard. *)
Theorem update_side_total (ob : OrderBook) (prices quantities : list float) :
  (snd (update_bids prices quantities ob) = Ok tt /\
   snd (update_offers prices quantities ob) = Ok tt) /\
  (forall price qty,
     is_neg price \/ (is_pos price /\ is_neg qty) ->
     update_bids_level (price, qty) ob = (ob, Ok tt) /\
     update_offers_level (price, qty) ob = (ob, Ok tt)) /\
  ((exists p, In p prices /\ is_neg p) -> all_zero prices = false).
Proof.
  split; [|split].
  - rewrite update_bids_eq, update_offers_eq.
    now destruct (all_zero prices).
  - intros price qty H.
    rewrite update_bids_level_eq, update_offers_level_eq.
    destruct (level_skipped_on_negative ob price qty H) as [-> ->].
    now rewrite set_bids_id, set_offers_id.
  - intros (p & Hin & Hn). unfold all_zero.
    destruct (forallb _ prices) eqn:E; auto.
    rewrite forallb_forall in E. specialize (E p Hin).
    now rewrite (negative_not_zero _ Hn) in E.
Qed.

Lemma update_side_total_witness :
  is_neg (of_Z (-1)) /\
  all_zero [f1_10; of_Z (-1); zero; zero; zero] = false /\
  update_bids_level (of_Z (-1), of_Z 3) spread_book = (spread_book, Ok tt).
Proof.
  pose proof (update_side_total spread_book
                [f1_10; of_Z (-1); zero; zero; zero]
                [of_Z 5; of_Z 3; zero; zero; zero]) as (_ & Hskip & Hguard).
  split; [reflexivity|]. split.
  - apply Hguard. exists (of_Z (-1)). split; [right; left|]; reflexivity.
  - apply (Hskip (of_Z (-1)) (of_Z 3)). left. reflexivity.
Defined.

(** C6: for a record whose fields are all read successfully,
    [update_order_book] overwrites [last_update_time] with the time of the
    record (a pandas Timestamp converted to a datetime), also when both side
    updates were no-ops because all their prices were 0.0. *)
Theorem update_order_book_sets_time
  (ob : OrderBook) (row : Row) (bp bq op oq : list float) (tv : pyobj) :
  float_fields row bid_price_labels = Ok bp ->
  float_fields row bid_quantity_labels = Ok bq ->
  float_fields row offer_price_labels = Ok op ->
  float_fields row offer_quantity_labels = Ok oq ->
  row_getitem row "time" = Ok tv ->
  (exists ob', update_order_book row ob = (ob', Ok tt) /\
               last_update_time ob' = to_pydatetime tv) /\
  (all_zero bp = true -> all_zero op = true ->
   update_order_book row ob
   = (set_last_update_time ob (to_pydatetime tv), Ok tt)).
Proof.
  intros Hbp Hbq Hop Hoq Htv.
  unfold update_order_book, bind, lift, get, put.
  rewrite Hbp, Hbq, Hop, Hoq, update_bids_eq.
  destruct (all_zero bp); rewrite update_offers_eq;
    destruct (all_zero op); rewrite Htv; clear Htv; destruct tv; simpl;
    (split; [eexists; split; reflexivity
            |try discriminate; intros _ _; reflexivity]).
Qed.

Lemma update_order_book_sets_time_witness :
  update_order_book row_all_zero spread_book
  = (set_last_update_time spread_book (Datetime 7), Ok tt).
Proof.
  refine (proj2 (update_order_book_sets_time spread_book row_all_zero
                   [zero; zero; zero; zero; zero]
                   [zero; zero; zero; zero; zero]
                   [zero; zero; zero; zero; zero]
                   [zero; zero; zero; zero; zero]
                   (Timestamp 7) _ _ _ _ _) _ _); reflexivity.
Defined.

(** ** Failures while reading a record *)

Lemma float_fields_fail row labels label :
  In label labels -> field_fails row label ->
  exists e, float_fields row labels = Raise e.
Proof.
  intros Hin [e He]. induction labels as [|l ls IH]; simpl; [contradiction|].
  destruct Hin as [->|Hin].
  - rewrite He. eauto.
  - destruct (float_field row l); eauto.
    destruct (IH Hin) as [e' ->]. eauto.
Qed.

Lemma float_fields_cases row labels :
  (exists fs, float_fields row labels = Ok fs) \/
  (exists e, float_fields row labels = Raise e).
Proof. destruct (float_fields row labels); eauto. Qed.

(** C4, as the code has it: when one of the twenty price and quantity fields
    cannot be read as a float, [update_order_book] raises and the order book
    is left completely unchanged; when these fields are read and only the
    [time] field is absent, it raises KeyError after both sides were updated,
    bid side and offer side together, and [last_update_time] is not
    modified. *)
Theorem update_order_book_extraction_failure (ob : OrderBook) (row : Row) :
  ((exists label, In label level_labels /\ field_fails row label) ->
   exists e, update_order_book row ob = (ob, Raise e)) /\
  (forall bp bq op oq,
     float_fields row bid_price_labels = Ok bp ->
     float_fields row bid_quantity_labels = Ok bq ->
     float_fields row offer_price_labels = Ok op ->
     float_fields row offer_quantity_labels = Ok oq ->
     row_getitem row "time" = Raise KeyError ->
     update_order_book row ob
     = (fst (update_offers op oq (fst (update_bids bp bq ob))),
        Raise KeyError) /\
     last_update_time (fst (update_offers op oq (fst (update_bids bp bq ob))))
     = last_update_time ob).
Proof.
  split.
  - intros (label & Hin & Hfail).
    unfold update_order_book, bind, lift. unfold level_labels in Hin.
    destruct (float_fields_cases row bid_price_labels) as [[bp Hbp]|[e ->]];
      [rewrite Hbp|eauto].
    destruct (float_fields_cases row bid_quantity_labels) as [[bq Hbq]|[e ->]];
      [rewrite Hbq|eauto].
    destruct (float_fields_cases row offer_price_labels) as [[op Hop]|[e ->]];
      [rewrite Hop|eauto].
    destruct (float_fields_cases row offer_quantity_labels)
      as [[oq Hoq]|[e ->]]; [exfalso|eauto].
    repeat (apply in_app_or in Hin as [Hin|Hin]);
      destruct (float_fields_fail row _ label Hin Hfail) as [e He]; congruence.
  - intros bp bq op oq Hbp Hbq Hop Hoq Htime.
    unfold update_order_book, bind, lift.
    rewrite Hbp, Hbq, Hop, Hoq, update_bids_eq.
    destruct (all_zero bp); simpl; rewrite update_offers_eq;
      destruct (all_zero op); simpl; rewrite Htime; auto.
Qed.

Lemma update_order_book_extraction_failure_witness :
  update_order_book row_without_time (new "EURUSD")
  = (mkOrderBook "EURUSD" [(of_Z 1, of_Z 1)] [(of_Z 1, of_Z 1)] PyNone,
     Raise KeyError) /\
  exists e, update_order_book (delete "BI_price_3"%string row_all_zero)
              spread_book = (spread_book, Raise e).
Proof.
  split.
  - refine (proj1 (proj2 (update_order_book_extraction_failure
                            (new "EURUSD") row_without_time)
                     [of_Z 1; of_Z 1; of_Z 1; of_Z 1; of_Z 1]
                     [of_Z 1; of_Z 1; of_Z 1; of_Z 1; of_Z 1]
                     [of_Z 1; of_Z 1; of_Z 1; of_Z 1; of_Z 1]
                     [of_Z 1; of_Z 1; of_Z 1; of_Z 1; of_Z 1] _ _ _ _ _));
      reflexivity.
  - apply (proj1 (update_order_book_extraction_failure spread_book
                    (delete "BI_price_3"%string row_all_zero))).
    exists "BI_price_3"%string. split.
    + do 2 right. left. reflexivity.
    + exists KeyError. reflexivity.
Defined.

(** C4 as stated fails: on a record whose twenty price and quantity fields
    are all 1.0 and whose [time] field is absent, reading a required field
    fails, yet the call leaves the new book with one bid and one offer
    level. *)
Lemma update_order_book_not_unchanged_without_time :
  extraction_fails row_without_time /\
  fst (update_order_book row_without_time (new "EURUSD")) <> new "EURUSD".
Proof.
  split.
  - right. reflexivity.
  - vm_compute. discriminate.
Qed.

(** ** The spread of the example book *)

(** C8, as the code has it: on a book whose best bid is (1.2000, 10) and
    whose best offer is (1.2005, 8), [get_spread] returns the binary64
    difference 0x1.0624dd2f1a800p-11, which lies below the float 0.0005 by
    less than 1e-16; on a book with no bid levels it returns None. *)
Theorem get_spread_example
  (ob : OrderBook) (more_bids more_offers : list (float * float)) :
  (bids ob = (f1_2000, of_Z 10) :: more_bids ->
   offers ob = (f1_2005, of_Z 8) :: more_offers ->
   get_spread ob = (ob, Ok (Some spread_1_2005_1_2000))) /\
  (lt spread_1_2005_1_2000 f0_0005 = true /\
   lt (sub f0_0005 spread_1_2005_1_2000) (decimal 1 (10 ^ 16)) = true) /\
  (bids ob = [] -> get_spread ob = (ob, Ok None)).
Proof.
  rewrite get_spread_eq. repeat split.
  - intros -> ->. reflexivity.
  - intros ->. reflexivity.
Qed.

Lemma get_spread_example_witness :
  get_spread spread_book = (spread_book, Ok (Some spread_1_2005_1_2000)) /\
  get_spread (new "EURUSD") = (new "EURUSD", Ok None).
Proof.
  split.
  - apply (proj1 (get_spread_example spread_book [] [])); reflexivity.
  - apply (proj2 (proj2 (get_spread_example (new "EURUSD") [] []))).
    reflexivity.
Defined.

(** C8 as stated fails: the spread of the example book is a float that does
    not compare equal to 0.0005. *)
Lemma get_spread_example_is_not_0_0005 :
  exists x, get_spread spread_book = (spread_book, Ok (Some x)) /\
            eq x f0_0005 = false /\ x <> f0_0005.
Proof.
  exists spread_1_2005_1_2000. repeat split. discriminate.
Qed.

(** ** Reconciliation index by index *)

Lemma apply_level_reconciled d price qty :
  spec_reconciled d price qty (apply_level d (price, qty)).
Proof.
  unfold spec_reconciled, apply_level. split; [|split].
  - unfold is_pos. now intros -> ->.
  - unfold is_pos. intros -> Hq.
    rewrite (eq_zero_not_gt _ Hq), Hq. simpl.
    destruct (contains d price) eqn:E; auto.
    now destruct (delitem_present _ _ E) as [d' ->].
  - intros Hp. now rewrite (eq_zero_not_gt _ Hp).
Qed.

Lemma fold_apply_level_reconciled levels d :
  spec_reconciled_in_order d levels (fold_left apply_level levels d).
Proof.
  revert d. induction levels as [|[price qty] rest IH]; intros d; simpl; auto.
  exists (apply_level d (price, qty)). split; auto.
  apply apply_level_reconciled.
Qed.

Lemma contains_after_delitem d p d' :
  is_pos p -> wf d -> delitem d p = Ok d' -> contains d' p = false.
Proof.
  intros Hp [Hnd _] Hd.
  destruct (delitem_keys d p d' Hp Hnd Hd) as (Hn & _).
  destruct (contains d' p) eqn:E; auto.
  apply contains_In in E; auto. contradiction.
Qed.

(** C1: when not every price is 0.0, [update_bids] (respectively
    [update_offers]) reconciles the side mapping index by index, first index
    first, and then sorts it: a positive price with a positive quantity sets
    the mapping at that price, inserting a new level or overwriting the one at
    that exact price; a positive price with quantity 0.0 removes that key when
    present and does nothing when absent; a price equal to 0.0 is skipped
    whatever the quantity.  The statement holds for sequences of any length,
    so for those of length 5. *)
Theorem update_side_reconciles_levels
  (ob : OrderBook) (prices quantities : list float) :
  all_zero prices = false ->
  (exists d',
     spec_reconciled_in_order (bids ob) (combine prices quantities) d' /\
     update_bids prices quantities ob
     = (set_bids ob (of_items (sorted_reverse (items d'))), Ok tt)) /\
  (exists d',
     spec_reconciled_in_order (offers ob) (combine prices quantities) d' /\
     update_offers prices quantities ob
     = (set_offers ob (of_items (sorted (items d'))), Ok tt)) /\
  (forall d price qty,
     is_pos price ->
     getitem (setitem d price qty) price = Ok qty /\
     length (setitem d price qty)
     = (if contains d price then length d else S (length d)) /\
     forall k, is_pos k -> k <> price ->
               getitem (setitem d price qty) k = getitem d k) /\
  (forall d price d',
     is_pos price -> wf d -> delitem d price = Ok d' ->
     contains d' price = false /\
     S (length d') = length d /\
     forall k, is_pos k -> k <> price -> getitem d' k = getitem d k).
Proof.
  intros Hz. split; [|split; [|split]].
  - exists (fold_left apply_level (combine prices quantities) (bids ob)).
    split; [apply fold_apply_level_reconciled|].
    now rewrite update_bids_eq, Hz.
  - exists (fold_left apply_level (combine prices quantities) (offers ob)).
    split; [apply fold_apply_level_reconciled|].
    now rewrite update_offers_eq, Hz.
  - intros d price qty Hp. split; [|split].
    + now apply getitem_setitem.
    + apply length_setitem.
    + intros k Hk Hne. now apply getitem_setitem_other.
  - intros d price d' Hp Hwf Hd. split; [|split].
    + now apply (contains_after_delitem d).
    + now destruct (delitem_keys d price d' Hp (proj1 Hwf) Hd) as (_ & _ & ? & _).
    + intros k Hk Hne. now apply (getitem_delitem_other d price).
Qed.

Lemma update_side_reconciles_levels_witness :
  all_zero [f1_10; f1_09; zero; zero; zero] = false /\
  exists d',
    spec_reconciled_in_order [] (combine [f1_10; f1_09; zero; zero; zero]
                                   [of_Z 5; of_Z 3; zero; zero; zero]) d' /\
    update_bids [f1_10; f1_09; zero; zero; zero]
      [of_Z 5; of_Z 3; zero; zero; zero] (new "EURUSD")
    = (set_bids (new "EURUSD") (of_items (sorted_reverse (items d'))), Ok tt).
Proof.
  split; [reflexivity|].
  apply (proj1 (update_side_reconciles_levels (new "EURUSD")
                  [f1_10; f1_09; zero; zero; zero]
                  [of_Z 5; of_Z 3; zero; zero; zero] eq_refl)).
Defined.

(** ** The order of the sides *)

Lemma book_inv_new sec : book_inv (new sec).
Proof.
  unfold book_inv, new. simpl. repeat split; constructor.
Qed.

Lemma do_call_inv c ob :
  book_inv ob -> exists ob', do_call c ob = (ob', Ok tt) /\ book_inv ob'.
Proof.
  intros (Hwb & Hdb & Hwo & Hao). destruct c as [ps qs|ps qs]; simpl.
  - rewrite update_bids_eq. destruct (all_zero ps).
    + exists ob. unfold book_inv. auto.
    + eexists. split; [reflexivity|].
      destruct (bids_after_sorted ps qs (bids ob) Hwb) as (_ & H1 & H2).
      unfold book_inv. simpl. auto.
  - rewrite update_offers_eq. destruct (all_zero ps).
    + exists ob. unfold book_inv. auto.
    + eexists. split; [reflexivity|].
      destruct (offers_after_sorted ps qs (offers ob) Hwo) as (_ & H1 & H2).
      unfold book_inv. simpl. auto.
Qed.

Lemma do_calls_inv cs ob :
  book_inv ob -> exists ob', do_calls cs ob = (ob', Ok tt) /\ book_inv ob'.
Proof.
  revert ob. induction cs as [|c cs IH]; intros ob Hinv; simpl.
  - exists ob. now split.
  - destruct (do_call_inv c ob Hinv) as (ob1 & H1 & Hinv1).
    destruct (IH ob1 Hinv1) as (ob2 & H2 & Hinv2).
    exists ob2. split; auto.
    unfold do_calls in *. simpl. unfold bind. now rewrite H1.
Qed.

(** C2: after any sequence of [update_bids] and [update_offers] calls on a
    freshly constructed order book, the keys of the bid mapping are in
    strictly descending and those of the offer mapping in strictly ascending
    order of price; no price appears twice on a side; the best bid is the
    first bid entry and above every other bid price, the best offer is the
    first offer entry and below every other offer price. *)
Theorem sides_stay_ordered (sec : string) (calls : list call) :
  exists ob,
    do_calls calls (new sec) = (ob, Ok tt) /\
    StronglySorted (fun a b => gt a b = true) (keys (bids ob)) /\
    StronglySorted (fun a b => lt a b = true) (keys (offers ob)) /\
    List.NoDup (keys (bids ob)) /\
    List.NoDup (keys (offers ob)) /\
    get_best_bid ob = (ob, Ok (head (bids ob))) /\
    get_best_offer ob = (ob, Ok (head (offers ob))) /\
    (forall best rest, keys (bids ob) = best :: rest ->
                       Forall (fun k => gt best k = true) rest) /\
    (forall best rest, keys (offers ob) = best :: rest ->
                       Forall (fun k => lt best k = true) rest).
Proof.
  destruct (do_calls_inv calls (new sec) (book_inv_new sec))
    as (ob & Hrun & (Hwb & Hdb & Hwo & Hao)).
  exists ob. split; [exact Hrun|].
  assert (Hb : StronglySorted (fun a b => gt a b = true) (keys (bids ob)))
    by (apply (StronglySorted_keys (fun a b => gt a b = true)); exact Hdb).
  assert (Ho : StronglySorted (fun a b => lt a b = true) (keys (offers ob)))
    by (apply (StronglySorted_keys (fun a b => lt a b = true)); exact Hao).
  split; [exact Hb|]. split; [exact Ho|].
  split; [apply Hwb|]. split; [apply Hwo|].
  split; [apply get_best_bid_head|]. split; [apply get_best_offer_head|].
  split; intros best rest E.
  - rewrite E in Hb. now inversion Hb.
  - rewrite E in Ho. now inversion Ho.
Qed.

Lemma sides_stay_ordered_witness :
  exists ob,
    do_calls scenario_calls (new "EURUSD") = (ob, Ok tt) /\
    Forall (fun k => gt f1_10 k = true) (tail (keys (bids ob))).
Proof.
  destruct (sides_stay_ordered "EURUSD" scenario_calls)
    as (ob & Hrun & _ & _ & _ & _ & _ & _ & Hbest & _).
  exists ob. split; [exact Hrun|].
  assert (E : ob = mkOrderBook "EURUSD"
                     [(f1_10, of_Z 5); (f1_09, of_Z 3)]
                     [(f1_11, of_Z 4); (f1_12, of_Z 6)] PyNone)
    by (vm_compute in Hrun; now injection Hrun as <-).
  apply (Hbest f1_10). now rewrite E.
Defined.

(** ** Applying one level twice *)

Lemma fold_zero_prices n quantities d :
  fold_left apply_level (combine (replicate n zero) quantities) d = d.
Proof.
  revert quantities. induction n as [|n IH]; intros [|q qs]; simpl; auto.
Qed.

Lemma fold_single_level i n price qty quantities d :
  (i < n)%nat -> quantities !! i = Some qty ->
  fold_left apply_level
    (combine (<[i := price]> (replicate n zero)) quantities) d
  = apply_level d (price, qty).
Proof.
  revert n quantities. induction i as [|i IH]; intros [|n] [|q qs] Hi Hq;
    try discriminate; try lia.
  - injection Hq as ->. simpl. apply fold_zero_prices.
  - simpl. apply IH; [lia|exact Hq].
Qed.

Lemma all_zero_single_level i n price :
  (i < n)%nat -> is_pos price ->
  all_zero (<[i := price]> (replicate n zero)) = false.
Proof.
  intros Hi Hp. revert n Hi. induction i as [|i IH]; intros [|n] Hi;
    try lia; simpl.
  - now rewrite (positive_not_zero _ Hp).
  - apply IH. lia.
Qed.

Lemma getitem_In d p q :
  is_pos p -> List.NoDup (keys d) -> getitem d p = Ok q <-> In (p, q) d.
Proof.
  intros Hp. induction d as [|[k w] d IH]; simpl; intros Hnd.
  - split; [discriminate|tauto].
  - apply List.NoDup_cons_iff in Hnd as [Hnotin Hnd].
    destruct (key_match k p) eqn:E.
    + apply key_match_pos in E; auto. subst k. split.
      * intros [= ->]. now left.
      * intros [[= ->]|Hin]; auto.
        exfalso. apply Hnotin. now apply (in_map fst) in Hin.
    + rewrite (IH Hnd). split; auto.
      intros [[= -> _]|Hin]; auto. now rewrite key_match_refl in E.
Qed.

Lemma getitem_Permutation d d' p :
  is_pos p -> wf d -> Permutation d d' -> getitem d' p = getitem d p.
Proof.
  intros Hp Hwf HP.
  assert (Hwf' : wf d') by (eapply wf_Permutation; eauto).
  destruct (getitem d p) as [q|e] eqn:E.
  - apply getitem_In in E; try apply Hwf; auto.
    apply getitem_In; try apply Hwf'; auto.
    eapply Permutation_in; eauto.
  - destruct (getitem d' p) as [q|e'] eqn:E'.
    + apply getitem_In in E'; try apply Hwf'; auto.
      apply (Permutation_in _ (Permutation_sym HP)) in E'.
      apply getitem_In in E'; try apply Hwf; auto. congruence.
    + clear -E E'. f_equal.
      assert (G : forall d0 e0, getitem d0 p = Raise e0 -> e0 = KeyError).
      { clear. induction d0 as [|[k w] d0 IH]; simpl; intros e0.
        - now intros [= <-].
        - destruct (key_match k p); [discriminate|apply IH]. }
      now rewrite (G _ _ E), (G _ _ E').
Qed.

Lemma count_key d p :
  is_pos p -> List.NoDup (keys d) -> In p (keys d) ->
  length (List.filter (fun kv => eq (fst kv) p) d) = 1%nat.
Proof.
  intros Hp. induction d as [|[k w] d IH]; simpl; intros Hnd Hin;
    [contradiction|].
  apply List.NoDup_cons_iff in Hnd as [Hnotin Hnd].
  destruct (eq k p) eqn:E.
  - apply eq_positive in E; auto. subst k. simpl. f_equal.
    clear IH Hnd Hin. induction d as [|[k' w'] d IH']; simpl; auto.
    simpl in Hnotin. destruct (eq k' p) eqn:E'.
    + apply eq_positive in E'; auto. tauto.
    + apply IH'. tauto.
  - apply IH; auto. destruct Hin as [->|Hin]; auto.
    now rewrite eq_refl_positive in E.
Qed.

Lemma upsert_twice d price qty :
  is_pos price -> is_pos qty -> wf d ->
  let d1 := sorted_reverse (setitem d price qty) in
  let d2 := sorted (setitem d price qty) in
  (wf d1 /\ getitem d1 price = Ok qty /\
   sorted_reverse (setitem d1 price qty) = d1) /\
  (wf d2 /\ getitem d2 price = Ok qty /\
   sorted (setitem d2 price qty) = d2).
Proof.
  intros Hp Hq Hwf d1 d2.
  assert (Hs : wf (setitem d price qty)) by now apply wf_setitem.
  assert (H1 : wf d1)
    by (eapply wf_Permutation; [|exact Hs];
        symmetry; apply sorted_reverse_Permutation).
  assert (H2 : wf d2)
    by (eapply wf_Permutation; [|exact Hs];
        symmetry; apply sorted_Permutation).
  assert (G1 : getitem d1 price = Ok qty).
  { rewrite (getitem_Permutation (setitem d price qty) d1); auto.
    - now apply getitem_setitem.
    - symmetry. apply sorted_reverse_Permutation. }
  assert (G2 : getitem d2 price = Ok qty).
  { rewrite (getitem_Permutation (setitem d price qty) d2); auto.
    - now apply getitem_setitem.
    - symmetry. apply sorted_Permutation. }
  split; (split; [assumption|split; [assumption|]]).
  - rewrite setitem_same by auto.
    apply sorted_reverse_of_descending; [apply H1|].
    now apply sorted_reverse_descending.
  - rewrite setitem_same by auto.
    apply sorted_of_ascending; [apply H2|].
    now apply sorted_ascending.
Qed.

Lemma apply_level_upsert d price qty :
  is_pos price -> is_pos qty -> apply_level d (price, qty) = setitem d price qty.
Proof. unfold apply_level, is_pos. now intros -> ->. Qed.

Lemma bids_after_single i price qty quantities d :
  is_pos price -> is_pos qty -> (i < 5)%nat -> quantities !! i = Some qty ->
  wf d ->
  bids_after (single_level_prices i price) quantities d
  = sorted_reverse (setitem d price qty).
Proof.
  intros Hp Hq Hi Hqs Hwf.
  destruct (bids_after_sorted (single_level_prices i price) quantities d Hwf)
    as (-> & _).
  unfold single_level_prices.
  now rewrite (fold_single_level i 5 price qty), apply_level_upsert.
Qed.

Lemma offers_after_single i price qty quantities d :
  is_pos price -> is_pos qty -> (i < 5)%nat -> quantities !! i = Some qty ->
  wf d ->
  offers_after (single_level_prices i price) quantities d
  = sorted (setitem d price qty).
Proof.
  intros Hp Hq Hi Hqs Hwf.
  destruct (offers_after_sorted (single_level_prices i price) quantities d Hwf)
    as (-> & _).
  unfold single_level_prices.
  now rewrite (fold_single_level i 5 price qty), apply_level_upsert.
Qed.

Lemma one_level_at d price qty :
  is_pos price -> wf d -> getitem d price = Ok qty ->
  length (List.filter (fun kv => eq (fst kv) price) d) = 1%nat.
Proof.
  intros Hp [Hnd _] Hg. apply count_key; auto.
  apply getitem_In in Hg; auto. now apply (in_map fst) in Hg.
Qed.

(** C9: for a price P > 0 and a quantity Q > 0, applying the pair (P, Q)
    twice through [update_bids] (respectively [update_offers]), at any of the
    five indexes of a batch whose other prices are 0.0, gives the same book
    as applying it once: exactly one level is at price P and it holds Q.  The
    side mapping is one the updates build: no price twice, every price
    positive. *)
Theorem upsert_is_idempotent
  (ob : OrderBook) (P Q : float) (i : nat) (quantities : list float) :
  is_pos P -> is_pos Q -> (i < 5)%nat -> quantities !! i = Some Q ->
  (wf (bids ob) ->
   let ob1 := fst (update_bids (single_level_prices i P) quantities ob) in
   fst (update_bids (single_level_prices i P) quantities ob1) = ob1 /\
   getitem (bids ob1) P = Ok Q /\
   length (List.filter (fun kv => eq (fst kv) P) (bids ob1)) = 1%nat) /\
  (wf (offers ob) ->
   let ob1 := fst (update_offers (single_level_prices i P) quantities ob) in
   fst (update_offers (single_level_prices i P) quantities ob1) = ob1 /\
   getitem (offers ob1) P = Ok Q /\
   length (List.filter (fun kv => eq (fst kv) P) (offers ob1)) = 1%nat).
Proof.
  intros Hp Hq Hi Hqs.
  assert (Hz : all_zero (single_level_prices i P) = false)
    by now apply all_zero_single_level.
  split; intros Hwf ob1; subst ob1.
  - destruct (upsert_twice (bids ob) P Q Hp Hq Hwf) as ((H1 & G1 & E1) & _).
    rewrite !update_bids_eq, Hz. simpl.
    rewrite (bids_after_single i P Q) by auto.
    rewrite (bids_after_single i P Q) by auto.
    rewrite E1. repeat split; auto. now apply (one_level_at _ P Q).
  - destruct (upsert_twice (offers ob) P Q Hp Hq Hwf) as (_ & (H2 & G2 & E2)).
    rewrite !update_offers_eq, Hz. simpl.
    rewrite (offers_after_single i P Q) by auto.
    rewrite (offers_after_single i P Q) by auto.
    rewrite E2. repeat split; auto. now apply (one_level_at _ P Q).
Qed.

Lemma upsert_is_idempotent_witness :
  let ob1 := fst (update_bids [zero; f1_2000; zero; zero; zero]
                    [zero; of_Z 10; zero; zero; zero] spread_book) in
  fst (update_bids [zero; f1_2000; zero; zero; zero]
         [zero; of_Z 10; zero; zero; zero] ob1) = ob1 /\
  getitem (bids ob1) f1_2000 = Ok (of_Z 10) /\
  length (List.filter (fun kv => eq (fst kv) f1_2000) (bids ob1)) = 1%nat.
Proof.
  refine (proj1 (upsert_is_idempotent spread_book f1_2000 (of_Z 10) 1
                   [zero; of_Z 10; zero; zero; zero] _ _ _ _) _);
    try reflexivity; try lia.
  split; simpl.
  - repeat constructor. intros [].
  - repeat constructor.
Defined.

(** * Further properties of the code *)

Example scenario_row_processed :
  process_row str_of_text scenario_row ∅
  = ({["EURUSD"%string :=
         mkOrderBook "EURUSD"
           [(f1_10, of_Z 5); (f1_09, of_Z 3)]
           [(f1_11, of_Z 4); (f1_12, of_Z 6)] (Datetime 1)]}, Ok tt).
Proof. vm_compute. reflexivity. Qed.

(** ** Lookups after an update *)

Lemma getitem_absent d k :
  is_pos k -> ~ In k (keys d) -> getitem d k = Raise KeyError.
Proof.
  intros Hk. induction d as [|[k' w] d IH]; simpl; intros Hn; auto.
  rewrite key_match_neq; auto; tauto.
Qed.

Lemma same_false a b : a <> b -> same a b = false.
Proof.
  intros Hne. destruct (same a b) eqn:E; auto.
  apply same_true in E. contradiction.
Qed.

Lemma same_refl a : same a a = true.
Proof. now apply same_true. Qed.

Lemma getitem_apply_level d k pq :
  wf d -> is_pos k ->
  getitem (apply_level d pq) k = level_effect k (getitem d k) pq.
Proof.
  intros Hwf Hk. destruct pq as [p q]. unfold apply_level, level_effect. simpl.
  destruct (gt p zero) eqn:Hp; simpl.
  2:{ now destruct (same p k). }
  destruct (datum_dec p k) as [->|Hne].
  - rewrite same_refl. destruct (gt q zero) eqn:Hq.
    + now apply getitem_setitem.
    + destruct (eq q zero) eqn:Hq0; auto.
      destruct (contains d k) eqn:Hc.
      * destruct (delitem_present _ _ Hc) as [d' Hd]. rewrite Hd.
        apply getitem_absent; auto.
        now destruct (delitem_keys d k d' Hk (proj1 Hwf) Hd).
      * apply getitem_absent; auto. now apply contains_false_notin.
  - rewrite (same_false _ _ Hne). destruct (gt q zero) eqn:Hq.
    + apply getitem_setitem_other; auto.
    + destruct (eq q zero) eqn:Hq0; auto.
      destruct (contains d p) eqn:Hc; auto.
      destruct (delitem_present _ _ Hc) as [d' Hd]. rewrite Hd.
      apply (getitem_delitem_other d p); auto.
Qed.

Lemma getitem_fold_apply_level levels d k :
  wf d -> is_pos k ->
  getitem (fold_left apply_level levels d) k
  = fold_left (level_effect k) levels (getitem d k).
Proof.
  revert d. induction levels as [|pq rest IH]; intros d Hwf Hk; simpl; auto.
  rewrite IH; auto using wf_apply_level.
  now rewrite getitem_apply_level.
Qed.

Lemma getitem_bids_after prices quantities d k :
  wf d -> is_pos k ->
  getitem (bids_after prices quantities d) k
  = fold_left (level_effect k) (combine prices quantities) (getitem d k).
Proof.
  intros Hwf Hk.
  destruct (bids_after_sorted prices quantities d Hwf) as (-> & _).
  rewrite (getitem_Permutation
             (fold_left apply_level (combine prices quantities) d)); auto.
  - now apply getitem_fold_apply_level.
  - now apply wf_fold_apply_level.
  - symmetry. apply sorted_reverse_Permutation.
Qed.

Lemma getitem_offers_after prices quantities d k :
  wf d -> is_pos k ->
  getitem (offers_after prices quantities d) k
  = fold_left (level_effect k) (combine prices quantities) (getitem d k).
Proof.
  intros Hwf Hk.
  destruct (offers_after_sorted prices quantities d Hwf) as (-> & _).
  rewrite (getitem_Permutation
             (fold_left apply_level (combine prices quantities) d)); auto.
  - now apply getitem_fold_apply_level.
  - now apply wf_fold_apply_level.
  - symmetry. apply sorted_Permutation.
Qed.

Lemma fold_effect_untouched k levels r :
  (forall pq, In pq levels -> fst pq <> k) ->
  fold_left (level_effect k) levels r = r.
Proof.
  revert r. induction levels as [|pq rest IH]; intros r Hn; simpl; auto.
  rewrite IH by (intros; apply Hn; now right).
  unfold level_effect. rewrite same_false; auto. apply Hn. now left.
Qed.

Lemma fold_effect_last k before q after r :
  is_pos k -> (forall pq, In pq after -> fst pq <> k) ->
  (is_pos q ->
   fold_left (level_effect k) (before ++ (k, q) :: after) r = Ok q) /\
  (eq q zero = true ->
   fold_left (level_effect k) (before ++ (k, q) :: after) r = Raise KeyError).
Proof.
  intros Hk Hn. rewrite fold_left_app. simpl.
  rewrite fold_effect_untouched by exact Hn.
  unfold level_effect. simpl. rewrite same_refl. unfold is_pos in *.
  rewrite Hk. simpl. split.
  - now intros ->.
  - intros Hq. now rewrite (eq_zero_not_gt _ Hq), Hq.
Qed.

(** The bid side after [update_bids], the offer side after [update_offers]. *)
Lemma bids_after_update prices quantities ob :
  bids (fst (update_bids prices quantities ob))
  = if all_zero prices then bids ob
    else bids_after prices quantities (bids ob).
Proof. rewrite update_bids_eq. now destruct (all_zero prices). Qed.

Lemma offers_after_update prices quantities ob :
  offers (fst (update_offers prices quantities ob))
  = if all_zero prices then offers ob
    else offers_after prices quantities (offers ob).
Proof. rewrite update_offers_eq. now destruct (all_zero prices). Qed.

(** X1: in a batch whose prices are not all 0.0, the last pair that names
    a positive price P decides the level at P after [update_bids]
    (respectively [update_offers]): with a positive quantity Q the level holds
    Q, with quantity 0.0 there is no level at P, whatever earlier pairs of the
    same batch did at that price. *)
Theorem last_pair_of_batch_wins
  (ob : OrderBook) (prices quantities : list float)
  (before after : list (float * float)) (P Q : float) :
  all_zero prices = false ->
  combine prices quantities = before ++ (P, Q) :: after ->
  (forall pq, In pq after -> fst pq <> P) ->
  is_pos P ->
  (wf (bids ob) ->
   (is_pos Q ->
    getitem (bids (fst (update_bids prices quantities ob))) P = Ok Q) /\
   (eq Q zero = true ->
    getitem (bids (fst (update_bids prices quantities ob))) P
    = Raise KeyError)) /\
  (wf (offers ob) ->
   (is_pos Q ->
    getitem (offers (fst (update_offers prices quantities ob))) P = Ok Q) /\
   (eq Q zero = true ->
    getitem (offers (fst (update_offers prices quantities ob))) P
    = Raise KeyError)).
Proof.
  intros Hz Hl Hafter HP. split; intros Hwf.
  - rewrite bids_after_update, Hz, getitem_bids_after, Hl by auto.
    now apply fold_effect_last.
  - rewrite offers_after_update, Hz, getitem_offers_after, Hl by auto.
    now apply fold_effect_last.
Qed.

Lemma last_pair_of_batch_wins_witness :
  getitem (bids (fst (update_bids [f1_10; f1_09; f1_10; zero; zero]
                        [of_Z 5; of_Z 3; zero; zero; zero] spread_book)))
    f1_10 = Raise KeyError.
Proof.
  refine (proj2 (proj1 (last_pair_of_batch_wins spread_book
                          [f1_10; f1_09; f1_10; zero; zero]
                          [of_Z 5; of_Z 3; zero; zero; zero]
                          [(f1_10, of_Z 5); (f1_09, of_Z 3)]
                          [(zero, zero); (zero, zero)] f1_10 zero
                          _ _ _ _) _) _); try reflexivity.
  - intros pq [<-|[<-|[]]] E; vm_compute in E; discriminate E.
  - split; simpl; repeat constructor. intros [].
Defined.

(** X2: a snapshot merges into the side, it does not replace it: a level at
    a positive price that no pair of the batch names keeps its quantity (and
    an absent one stays absent) through [update_bids] and [update_offers]. *)
Theorem unnamed_levels_are_kept
  (ob : OrderBook) (prices quantities : list float) (k : float) :
  is_pos k ->
  (forall pq, In pq (combine prices quantities) -> fst pq <> k) ->
  (wf (bids ob) ->
   getitem (bids (fst (update_bids prices quantities ob))) k
   = getitem (bids ob) k) /\
  (wf (offers ob) ->
   getitem (offers (fst (update_offers prices quantities ob))) k
   = getitem (offers ob) k).
Proof.
  intros Hk Hn. split; intros Hwf.
  - rewrite bids_after_update. destruct (all_zero prices); auto.
    rewrite getitem_bids_after by auto. now apply fold_effect_untouched.
  - rewrite offers_after_update. destruct (all_zero prices); auto.
    rewrite getitem_offers_after by auto. now apply fold_effect_untouched.
Qed.

Lemma unnamed_levels_are_kept_witness :
  getitem (bids (fst (update_bids [f1_10; f1_09; zero; zero; zero]
                        [of_Z 5; of_Z 3; zero; zero; zero] spread_book)))
    f1_2000 = Ok (of_Z 10).
Proof.
  refine (eq_trans (proj1 (unnamed_levels_are_kept spread_book
                             [f1_10; f1_09; zero; zero; zero]
                             [of_Z 5; of_Z 3; zero; zero; zero] f1_2000
                             _ _) _) _); try reflexivity.
  - intros pq [<-|[<-|[<-|[<-|[<-|[]]]]]] E; vm_compute in E; discriminate E.
  - split; simpl; repeat constructor. intros [].
Defined.

(** ** Replaying a batch *)

(** Two sides in ascending order that answer every lookup alike are the same
    list of entries. *)
Lemma ascending_ext d d' :
  wf d -> wf d' -> ascending d -> ascending d' ->
  (forall k, is_pos k -> getitem d k = getitem d' k) -> d = d'.
Proof.
  intros Hwf Hwf' Hs. revert d' Hwf'.
  induction Hs as [|[k v] d Hs IH Hall]; intros d' Hwf' Hs' Hext.
  - destruct d' as [|[k' v'] d']; auto.
    destruct Hwf' as [_ Hpos]. inversion Hpos as [|? ? Hk' _]; subst.
    specialize (Hext k' Hk'). simpl in Hext.
    now rewrite key_match_refl in Hext.
  - assert (Hin : forall (l l' : t), wf l -> wf l' ->
              (forall k0, is_pos k0 -> getitem l k0 = getitem l' k0) ->
              forall kv, In kv l -> In kv l').
    { intros l l' [Hnd Hp] [Hnd' Hp'] Hx [a b] Hab.
      assert (Ha : is_pos a).
      { rewrite List.Forall_forall in Hp. apply Hp.
        now apply (in_map fst) in Hab. }
      apply getitem_In; auto. rewrite <- Hx by auto. now apply getitem_In. }
    destruct d' as [|[k' v'] d'].
    + exfalso. apply (Hin ((k, v) :: d) [] Hwf Hwf' Hext (k, v)). now left.
    + inversion Hs' as [|? ? Hs'' Hall']; subst.
      assert (Hk : is_pos k)
        by (destruct Hwf as [_ Hp]; now inversion Hp).
      assert (Hk' : is_pos k')
        by (destruct Hwf' as [_ Hp]; now inversion Hp).
      assert (E : (k, v) = (k', v')).
      { pose proof (Hin _ _ Hwf Hwf' Hext (k, v) (or_introl eq_refl)) as H1.
        pose proof (Hin _ _ Hwf' Hwf (fun k0 H0 => eq_sym (Hext k0 H0))
                      (k', v') (or_introl eq_refl)) as H2.
        destruct H1 as [H1|H1]; [now symmetry|].
        destruct H2 as [H2|H2]; [assumption|].
        rewrite List.Forall_forall in Hall, Hall'.
        specialize (Hall _ H2). specialize (Hall' _ H1).
        unfold key_lt in Hall, Hall'. simpl in Hall, Hall'.
        rewrite (lt_asym k k' Hk Hk' Hall) in Hall'. discriminate. }
      injection E as <- <-. f_equal.
      destruct Hwf as [Hnd Hp], Hwf' as [Hnd' Hp']. simpl in *.
      apply List.NoDup_cons_iff in Hnd as [Hn Hnd].
      apply List.NoDup_cons_iff in Hnd' as [Hn' Hnd'].
      apply List.Forall_cons_iff in Hp as [_ Hp].
      apply List.Forall_cons_iff in Hp' as [_ Hp'].
      apply IH; try (split; assumption); auto.
      intros k0 Hk0. specialize (Hext k0 Hk0). simpl in Hext.
      destruct (datum_dec k k0) as [->|Hne].
      * rewrite !getitem_absent; auto.
      * now rewrite key_match_neq in Hext by auto.
Qed.

Lemma descending_ext d d' :
  wf d -> wf d' -> descending d -> descending d' ->
  (forall k, is_pos k -> getitem d k = getitem d' k) -> d = d'.
Proof.
  intros Hwf Hwf' Hs Hs' Hext.
  rewrite <- (rev_involutive d), <- (rev_involutive d'). f_equal.
  assert (Hr : wf (rev d))
    by (eapply wf_Permutation; [apply Permutation_rev|exact Hwf]).
  assert (Hr' : wf (rev d'))
    by (eapply wf_Permutation; [apply Permutation_rev|exact Hwf']).
  apply ascending_ext; auto using descending_rev.
  intros k Hk.
  rewrite (getitem_Permutation d (rev d)),
    (getitem_Permutation d' (rev d')); auto using Permutation_rev.
Qed.

(** An effect either leaves every lookup as it is or sets them all to one
    outcome; so does a sequence of effects. *)
Lemma fold_effect_cases k levels :
  (forall r, fold_left (level_effect k) levels r = r) \/
  (exists c, forall r, fold_left (level_effect k) levels r = c).
Proof.
  induction levels as [|pq rest IH]; simpl; [now left|].
  destruct IH as [IH|[c IH]]; [|right; exists c; intros r; apply IH].
  unfold level_effect at 2. unfold level_effect at 3.
  destruct (same (fst pq) k); [|now left].
  destruct (gt (fst pq) zero && gt (snd pq) zero);
    [right; eexists; intros r; apply IH|].
  destruct (gt (fst pq) zero && eq (snd pq) zero);
    [right; eexists; intros r; apply IH|now left].
Qed.

Lemma fold_effect_twice k levels r :
  fold_left (level_effect k) levels (fold_left (level_effect k) levels r)
  = fold_left (level_effect k) levels r.
Proof.
  destruct (fold_effect_cases k levels) as [H|[c H]].
  - now rewrite !H.
  - now rewrite !H.
Qed.

(** X3: replaying a snapshot is harmless: on a side with distinct positive
    prices, applying the same batch of prices and quantities a second time
    through [update_bids] (respectively [update_offers]) leaves the book
    exactly as the first application left it, entries and order. *)
Theorem batch_replay_is_idempotent
  (ob : OrderBook) (prices quantities : list float) :
  (wf (bids ob) ->
   fst (update_bids prices quantities
          (fst (update_bids prices quantities ob)))
   = fst (update_bids prices quantities ob)) /\
  (wf (offers ob) ->
   fst (update_offers prices quantities
          (fst (update_offers prices quantities ob)))
   = fst (update_offers prices quantities ob)).
Proof.
  split; intros Hwf.
  - rewrite !update_bids_eq. destruct (all_zero prices) eqn:Hz; simpl;
      rewrite ?update_bids_eq, ?Hz; auto. simpl.
    unfold set_bids. simpl. f_equal.
    destruct (bids_after_sorted prices quantities (bids ob) Hwf)
      as (_ & Hwf1 & Hs1).
    destruct (bids_after_sorted prices quantities _ Hwf1) as (_ & Hwf2 & Hs2).
    apply descending_ext; auto.
    intros k Hk. rewrite !getitem_bids_after by auto.
    apply fold_effect_twice.
  - rewrite !update_offers_eq. destruct (all_zero prices) eqn:Hz; simpl;
      rewrite ?update_offers_eq, ?Hz; auto. simpl.
    unfold set_offers. simpl. f_equal.
    destruct (offers_after_sorted prices quantities (offers ob) Hwf)
      as (_ & Hwf1 & Hs1).
    destruct (offers_after_sorted prices quantities _ Hwf1)
      as (_ & Hwf2 & Hs2).
    apply ascending_ext; auto.
    intros k Hk. rewrite !getitem_offers_after by auto.
    apply fold_effect_twice.
Qed.

Lemma batch_replay_is_idempotent_witness :
  fst (update_bids [f1_10; f1_09; f1_10; zero; f1_12]
         [of_Z 5; of_Z 3; zero; zero; of_Z 6]
         (fst (update_bids [f1_10; f1_09; f1_10; zero; f1_12]
                 [of_Z 5; of_Z 3; zero; zero; of_Z 6] spread_book)))
  = fst (update_bids [f1_10; f1_09; f1_10; zero; f1_12]
           [of_Z 5; of_Z 3; zero; zero; of_Z 6] spread_book).
Proof.
  apply (proj1 (batch_replay_is_idempotent spread_book
                  [f1_10; f1_09; f1_10; zero; f1_12]
                  [of_Z 5; of_Z 3; zero; zero; of_Z 6])).
  split; simpl; repeat constructor. intros [].
Defined.

(** ** What the sides hold *)

Lemma levels_positive_setitem d p q :
  is_pos p -> is_pos q -> levels_positive d -> levels_positive (setitem d p q).
Proof.
  intros Hp Hq. unfold levels_positive.
  induction d as [|[k w] d IH]; simpl; intros H.
  - now repeat constructor.
  - apply List.Forall_cons_iff in H as [[Hk Hw] H].
    destruct (key_match k p); constructor; auto.
Qed.

Lemma levels_positive_delitem d p d' :
  delitem d p = Ok d' -> levels_positive d -> levels_positive d'.
Proof.
  unfold levels_positive. revert d'.
  induction d as [|[k w] d IH]; simpl; intros d'; try discriminate.
  intros Hd H. apply List.Forall_cons_iff in H as [Hkw H].
  destruct (key_match k p).
  - now injection Hd as <-.
  - destruct (delitem d p) as [d''|]; try discriminate.
    injection Hd as <-. constructor; auto.
Qed.

Lemma levels_positive_apply_level d pq :
  levels_positive d -> levels_positive (apply_level d pq).
Proof.
  destruct pq as [p q]. unfold apply_level. intros H.
  destruct (gt p zero) eqn:Hp; simpl; auto.
  destruct (gt q zero) eqn:Hq; [now apply levels_positive_setitem|].
  destruct (eq q zero); auto.
  destruct (contains d p); auto.
  destruct (delitem d p) as [d'|] eqn:Hd; auto.
  now apply (levels_positive_delitem d p).
Qed.

Lemma levels_positive_fold levels d :
  levels_positive d -> levels_positive (fold_left apply_level levels d).
Proof.
  revert d. induction levels as [|pq rest IH]; intros d H; simpl; auto.
  apply IH. now apply levels_positive_apply_level.
Qed.

Lemma update_bids_ok sec prices quantities ob :
  book_ok sec ob -> book_ok sec (fst (update_bids prices quantities ob)).
Proof.
  intros (Hsec & (Hwb & Hdb & Hwo & Hao) & Hpb & Hpo).
  rewrite update_bids_eq. destruct (all_zero prices); simpl.
  { repeat split; auto; try apply Hwb; try apply Hwo. }
  destruct (bids_after_sorted prices quantities (bids ob) Hwb)
    as (E & Hw1 & Hd1).
  split; [auto|]. split; [unfold book_inv; simpl; auto|]. split; auto.
  simpl. rewrite E. unfold levels_positive.
  eapply Permutation_Forall;
    [symmetry; apply sorted_reverse_Permutation|].
  now apply levels_positive_fold.
Qed.

Lemma update_offers_ok sec prices quantities ob :
  book_ok sec ob -> book_ok sec (fst (update_offers prices quantities ob)).
Proof.
  intros (Hsec & (Hwb & Hdb & Hwo & Hao) & Hpb & Hpo).
  rewrite update_offers_eq. destruct (all_zero prices); simpl.
  { repeat split; auto; try apply Hwb; try apply Hwo. }
  destruct (offers_after_sorted prices quantities (offers ob) Hwo)
    as (E & Hw1 & Hd1).
  split; [auto|]. split; [unfold book_inv; simpl; auto|]. split; auto.
  simpl. rewrite E. unfold levels_positive.
  eapply Permutation_Forall; [symmetry; apply sorted_Permutation|].
  now apply levels_positive_fold.
Qed.

Lemma book_ok_new sec : book_ok sec (new sec).
Proof.
  split; [reflexivity|]. split; [apply book_inv_new|].
  split; constructor.
Qed.

Lemma do_calls_ok sec calls ob :
  book_ok sec ob -> book_ok sec (fst (do_calls calls ob)).
Proof.
  revert ob. induction calls as [|c cs IH]; intros ob Hok; simpl; auto.
  unfold do_calls in *. simpl. unfold bind.
  assert (H1 : book_ok sec (fst (do_call c ob)))
    by (destruct c; simpl; auto using update_bids_ok, update_offers_ok).
  destruct (do_call c ob) as [ob1 [[]|e]] eqn:E; simpl in *; auto.
Qed.

(** X4: after any sequence of [update_bids] and [update_offers] calls on a
    fresh order book, every stored price and every stored quantity is one
    that passed [> 0.0]: no level with a zero, negative or NaN price or
    quantity is ever stored. *)
Theorem stored_levels_are_positive (sec : string) (calls : list call) :
  Forall (fun kv => is_pos (fst kv) /\ is_pos (snd kv))
    (bids (fst (do_calls calls (new sec)))) /\
  Forall (fun kv => is_pos (fst kv) /\ is_pos (snd kv))
    (offers (fst (do_calls calls (new sec)))).
Proof.
  destruct (do_calls_ok sec calls (new sec) (book_ok_new sec))
    as (_ & _ & Hb & Ho).
  split; assumption.
Qed.

(** X5: the two sides are updated independently: [update_bids] followed by
    [update_offers] gives the same book, and the same outcome, as
    [update_offers] followed by [update_bids]. *)
Theorem side_updates_commute
  (ob : OrderBook) (bp bq op oq : list float) :
  (update_bids bp bq ;; update_offers op oq) ob
  = (update_offers op oq ;; update_bids bp bq) ob.
Proof.
  unfold bind. rewrite (update_bids_eq bp bq ob), (update_offers_eq op oq ob).
  destruct (all_zero bp) eqn:Hb, (all_zero op) eqn:Ho;
    rewrite ?update_bids_eq, ?update_offers_eq, ?Hb, ?Ho; reflexivity.
Qed.

Lemma combine_surplus_l {A B} (l extra : list A) (l' : list B) :
  length l = length l' -> combine (l ++ extra) l' = combine l l'.
Proof.
  revert l'. induction l as [|x l IH]; intros [|y l'] H; simpl in *;
    try discriminate; auto.
  - now destruct extra.
  - f_equal. apply IH. congruence.
Qed.

Lemma combine_surplus_r {A B} (l : list A) (l' extra : list B) :
  length l = length l' -> combine l (l' ++ extra) = combine l l'.
Proof.
  revert l'. induction l as [|x l IH]; intros [|y l'] H; simpl in *;
    try discriminate; auto.
  f_equal. apply IH. congruence.
Qed.

Lemma all_zero_app_false prices extra :
  all_zero prices = false -> all_zero (prices ++ extra) = false.
Proof.
  unfold all_zero. intros H. rewrite forallb_app, H. reflexivity.
Qed.

(** X6: prices and quantities are paired with [zip]: when one list is
    longer than the other its surplus is never applied, and no error is
    raised.  Surplus quantities change nothing; surplus prices change nothing
    either once the paired prices are not all 0.0. *)
Theorem surplus_entries_are_ignored
  (ob : OrderBook) (prices quantities surplus : list float) :
  length prices = length quantities ->
  (update_bids prices (quantities ++ surplus) ob
   = update_bids prices quantities ob /\
   update_offers prices (quantities ++ surplus) ob
   = update_offers prices quantities ob) /\
  (all_zero prices = false ->
   update_bids (prices ++ surplus) quantities ob
   = update_bids prices quantities ob /\
   update_offers (prices ++ surplus) quantities ob
   = update_offers prices quantities ob).
Proof.
  intros Hlen. split.
  - rewrite !update_bids_eq, !update_offers_eq.
    unfold bids_after, offers_after.
    now rewrite combine_surplus_r.
  - intros Hz. rewrite !update_bids_eq, !update_offers_eq.
    rewrite (all_zero_app_false _ surplus Hz), Hz.
    unfold bids_after, offers_after.
    now rewrite combine_surplus_l.
Qed.

Lemma surplus_entries_are_ignored_witness :
  update_bids ([f1_10; f1_09] ++ [f1_12]) [of_Z 5; of_Z 3] spread_book
  = update_bids [f1_10; f1_09] [of_Z 5; of_Z 3] spread_book.
Proof.
  apply (proj2 (surplus_entries_are_ignored spread_book
                  [f1_10; f1_09] [of_Z 5; of_Z 3] [f1_12] eq_refl)).
  reflexivity.
Defined.

(** ** Reading the fields of a record *)

Lemma float_fields_app row l1 l2 :
  float_fields row (l1 ++ l2) =
  match float_fields row l1 with
  | Raise e => Raise e
  | Ok a => match float_fields row l2 with
            | Raise e => Raise e
            | Ok b => Ok (a ++ b)
            end
  end.
Proof.
  induction l1 as [|l ls IH]; simpl.
  - now destruct (float_fields row l2).
  - destruct (float_field row l); auto. rewrite IH.
    destruct (float_fields row ls); auto.
    now destruct (float_fields row l2).
Qed.

Lemma update_order_book_levels_fail row ob e :
  float_fields row level_labels = Raise e ->
  update_order_book row ob = (ob, Raise e).
Proof.
  unfold level_labels, update_order_book, bind, lift.
  rewrite !float_fields_app.
  destruct (float_fields row bid_price_labels); [|now intros [= ->]].
  destruct (float_fields row bid_quantity_labels); [|now intros [= ->]].
  destruct (float_fields row offer_price_labels); [|now intros [= ->]].
  destruct (float_fields row offer_quantity_labels); [|now intros [= ->]].
  discriminate.
Qed.

Lemma float_fields_first_failure row before label after e :
  (forall l, In l before -> exists f, float_field row l = Ok f) ->
  float_field row label = Raise e ->
  float_fields row (before ++ label :: after) = Raise e.
Proof.
  intros Hb He. induction before as [|l ls IH]; simpl.
  - now rewrite He.
  - destruct (Hb l (or_introl eq_refl)) as [f ->].
    rewrite IH; auto. intros l' Hl'. apply Hb. now right.
Qed.

Lemma float_field_Ok row label f :
  float_field row label = Ok f <-> row !! label = Some (PyFloatObj f).
Proof.
  unfold float_field, row_getitem.
  destruct (row !! label) as [[g|s| | |]|]; simpl; split;
    try discriminate; congruence.
Qed.

Lemma float_fields_Ok row labels :
  (exists fs, float_fields row labels = Ok fs) <->
  (forall l, In l labels -> exists f, row !! l = Some (PyFloatObj f)).
Proof.
  induction labels as [|l ls IH]; simpl.
  - split; [intros _ l []|eauto].
  - split.
    + intros [fs H] l' [<-|Hin].
      * destruct (float_field row l) as [f|] eqn:E; try discriminate.
        exists f. now apply float_field_Ok.
      * apply IH; auto. destruct (float_field row l); try discriminate.
        destruct (float_fields row ls); try discriminate. eauto.
    + intros H. destruct (H l (or_introl eq_refl)) as [f Hf].
      apply float_field_Ok in Hf. rewrite Hf.
      destruct (proj2 IH (fun l' Hl' => H l' (or_intror Hl'))) as [fs ->].
      eauto.
Qed.

(** The book and the outcome of [update_order_book] once the twenty fields
    are read. *)
Lemma update_order_book_read row ob bp bq op oq :
  float_fields row bid_price_labels = Ok bp ->
  float_fields row bid_quantity_labels = Ok bq ->
  float_fields row offer_price_labels = Ok op ->
  float_fields row offer_quantity_labels = Ok oq ->
  update_order_book row ob =
  let ob2 := fst (update_offers op oq (fst (update_bids bp bq ob))) in
  match row !! "time"%string with
  | None => (ob2, Raise KeyError)
  | Some tv => (set_last_update_time ob2 (to_pydatetime tv), Ok tt)
  end.
Proof.
  intros Hbp Hbq Hop Hoq.
  unfold update_order_book, bind, lift, get, put, row_getitem.
  rewrite Hbp, Hbq, Hop, Hoq, update_bids_eq.
  destruct (all_zero bp); simpl; rewrite update_offers_eq;
    destruct (all_zero op); simpl;
    destruct (row !! "time"%string) as [[]|]; reflexivity.
Qed.

Lemma update_order_book_cases row ob :
  (exists e, update_order_book row ob = (ob, Raise e)) \/
  (exists bp bq op oq,
     update_order_book row ob =
     let ob2 := fst (update_offers op oq (fst (update_bids bp bq ob))) in
     match row !! "time"%string with
     | None => (ob2, Raise KeyError)
     | Some tv => (set_last_update_time ob2 (to_pydatetime tv), Ok tt)
     end).
Proof.
  destruct (float_fields row level_labels) as [fs|e] eqn:E.
  - right. unfold level_labels in E. rewrite !float_fields_app in E.
    destruct (float_fields row bid_price_labels) as [bp|] eqn:E1;
      try discriminate.
    destruct (float_fields row bid_quantity_labels) as [bq|] eqn:E2;
      try discriminate.
    destruct (float_fields row offer_price_labels) as [op|] eqn:E3;
      try discriminate.
    destruct (float_fields row offer_quantity_labels) as [oq|] eqn:E4;
      try discriminate.
    exists bp, bq, op, oq. now apply update_order_book_read.
  - left. exists e. now apply update_order_book_levels_fail.
Qed.

Lemma update_order_book_ok sec row ob :
  book_ok sec ob -> book_ok sec (fst (update_order_book row ob)).
Proof.
  intros Hok.
  destruct (update_order_book_cases row ob)
    as [[e ->]|(bp & bq & op & oq & ->)]; auto.
  assert (H2 : book_ok sec (fst (update_offers op oq
                                   (fst (update_bids bp bq ob)))))
    by auto using update_bids_ok, update_offers_ok.
  simpl. destruct (row !! "time"%string); simpl; auto.
Qed.

(** X7: the error of [update_order_book] is that of the first field, in
    the order bid prices, bid quantities, offer prices, offer quantities and
    1 to 5 within each, that cannot be read as a float: KeyError when the
    field is absent, ValueError when it is text that is no number, TypeError
    when it is None; the order book is left as it was. *)
Theorem first_unreadable_field_decides_error
  (ob : OrderBook) (row : Row)
  (before after : list string) (label : string) (e : exn) :
  level_labels = before ++ label :: after ->
  (forall l, In l before -> exists f, float_field row l = Ok f) ->
  float_field row label = Raise e ->
  update_order_book row ob = (ob, Raise e) /\
  (row !! label = None -> e = KeyError) /\
  (forall s, row !! label = Some (PyStr s) -> e = ValueError) /\
  (row !! label = Some PyNone -> e = TypeError).
Proof.
  intros Hl Hb He. split.
  - apply update_order_book_levels_fail. rewrite Hl.
    now apply float_fields_first_failure.
  - unfold float_field, row_getitem in He.
    repeat split; [intros H|intros s H|intros H];
      rewrite H in He; simpl in He; congruence.
Qed.

Lemma first_unreadable_field_decides_error_witness :
  update_order_book
    (<["BI_price_2"%string := PyStr "n/a"]>
       (delete "OF_price_1"%string scenario_row)) spread_book
  = (spread_book, Raise ValueError).
Proof.
  refine (proj1 (first_unreadable_field_decides_error spread_book
                   (<["BI_price_2"%string := PyStr "n/a"]>
                      (delete "OF_price_1"%string scenario_row))
                   ["BI_price_1"%string] _ "BI_price_2"%string ValueError
                   eq_refl _ _)).
  - intros l [<-|[]]. exists f1_10. reflexivity.
  - reflexivity.
Defined.

(** X8: [update_order_book] returns normally exactly when each of the twenty
    price and quantity fields of the record holds a float and the record has
    a [time] field. *)
Theorem update_order_book_succeeds_iff (ob : OrderBook) (row : Row) :
  snd (update_order_book row ob) = Ok tt <->
  (forall l, In l level_labels -> exists f, row !! l = Some (PyFloatObj f)) /\
  is_Some (row !! "time"%string).
Proof.
  split.
  - intros H. destruct (float_fields row level_labels) as [fs|e] eqn:E.
    + split; [apply float_fields_Ok; eauto|].
      unfold level_labels in E. rewrite !float_fields_app in E.
      destruct (float_fields row bid_price_labels) as [bp|] eqn:E1;
        try discriminate.
      destruct (float_fields row bid_quantity_labels) as [bq|] eqn:E2;
        try discriminate.
      destruct (float_fields row offer_price_labels) as [op|] eqn:E3;
        try discriminate.
      destruct (float_fields row offer_quantity_labels) as [oq|] eqn:E4;
        try discriminate.
      rewrite (update_order_book_read row ob bp bq op oq) in H by auto.
      simpl in H. destruct (row !! "time"%string); [eauto|discriminate].
    + rewrite (update_order_book_levels_fail row ob e E) in H. discriminate.
  - intros [Hall [tv Ht]].
    assert (G : forall labels, incl labels level_labels ->
                               exists fs, float_fields row labels = Ok fs)
      by (intros labels Hi; apply float_fields_Ok; auto).
    unfold level_labels in G.
    destruct (G bid_price_labels) as [bp Hbp]; [auto with datatypes|].
    destruct (G bid_quantity_labels) as [bq Hbq]; [auto with datatypes|].
    destruct (G offer_price_labels) as [op Hop]; [auto with datatypes|].
    destruct (G offer_quantity_labels) as [oq Hoq]; [auto with datatypes|].
    rewrite (update_order_book_read row ob bp bq op oq) by auto.
    simpl. now rewrite Ht.
Qed.

(** X9: whatever the record, and whether it returns or raises,
    [update_order_book] keeps a book of distinct positive prices in order:
    the security is not changed, the bid prices stay strictly descending and
    the offer prices strictly ascending, and every stored price and quantity
    is positive. *)
Theorem update_order_book_keeps_book_ordered (ob : OrderBook) (row : Row) :
  book_ok (security ob) ob ->
  let ob' := fst (update_order_book row ob) in
  security ob' = security ob /\
  StronglySorted (fun a b => gt a b = true) (keys (bids ob')) /\
  StronglySorted (fun a b => lt a b = true) (keys (offers ob')) /\
  levels_positive (bids ob') /\ levels_positive (offers ob').
Proof.
  intros Hok ob'.
  destruct (update_order_book_ok (security ob) row ob Hok)
    as (Hsec & (_ & Hdb & _ & Hao) & Hpb & Hpo).
  split; [exact Hsec|]. split; [|split; [|split; assumption]].
  - apply (StronglySorted_keys (fun a b => gt a b = true)). exact Hdb.
  - apply (StronglySorted_keys (fun a b => lt a b = true)). exact Hao.
Qed.

Lemma update_order_book_keeps_book_ordered_witness :
  StronglySorted (fun a b => gt a b = true)
    (keys (bids (fst (update_order_book scenario_row (new "EURUSD"))))).
Proof.
  apply (update_order_book_keeps_book_ordered (new "EURUSD") scenario_row).
  apply book_ok_new.
Defined.

(** ** The registry of order books *)

Section Registry.

Variable py_str : pyobj -> string.

Lemma filed_lookup security order_books :
  filed security order_books !! security
  = Some (default (new security) (order_books !! security)).
Proof.
  unfold filed. destruct (order_books !! security) eqn:E; simpl; auto.
  apply lookup_insert_eq.
Qed.

Lemma process_row_eq row order_books :
  process_row py_str row order_books =
  match row !! "security"%string with
  | None => (order_books, Raise KeyError)
  | Some v =>
      let security := py_str v in
      let ob := default (new security) (order_books !! security) in
      (<[security := fst (update_order_book row ob)]> order_books,
       snd (update_order_book row ob))
  end.
Proof.
  unfold process_row, row_getitem.
  destruct (row !! "security"%string) as [v|]; auto.
  fold (filed (py_str v) order_books). rewrite filed_lookup. simpl.
  destruct (update_order_book row _) as [ob' r]. simpl. f_equal.
  unfold filed. destruct (order_books !! py_str v); auto.
  apply insert_insert_eq.
Qed.

Lemma process_row_other row order_books k :
  (forall v, row !! "security"%string = Some v -> py_str v <> k) ->
  fst (process_row py_str row order_books) !! k = order_books !! k.
Proof.
  intros H. rewrite process_row_eq.
  destruct (row !! "security"%string) as [v|]; simpl; auto.
  apply lookup_insert_ne. now apply H.
Qed.

Lemma process_row_keeps_keys row order_books k :
  is_Some (order_books !! k) ->
  is_Some (fst (process_row py_str row order_books) !! k).
Proof.
  intros H. rewrite process_row_eq.
  destruct (row !! "security"%string) as [v|]; simpl; auto.
  apply lookup_insert_is_Some.
  destruct (decide (py_str v = k)); auto.
Qed.

Lemma process_row_ok row order_books :
  map_Forall book_ok order_books ->
  map_Forall book_ok (fst (process_row py_str row order_books)).
Proof.
  intros H. rewrite process_row_eq.
  destruct (row !! "security"%string) as [v|]; simpl; auto.
  apply map_Forall_insert_2; auto.
  apply update_order_book_ok.
  destruct (order_books !! py_str v) as [ob|] eqn:E; simpl.
  - now apply (map_Forall_lookup_1 _ _ _ _ H E).
  - apply book_ok_new.
Qed.

Lemma process_rows_app before after order_books :
  process_rows py_str (before ++ after) order_books =
  match process_rows py_str before order_books with
  | (order_books', Ok _) => process_rows py_str after order_books'
  | (order_books', Raise e) => (order_books', Raise e)
  end.
Proof.
  revert order_books. induction before as [|row rest IH]; intros books;
    simpl; auto.
  destruct (process_row py_str row books) as [books' [[]|e]]; auto.
Qed.

Lemma process_rows_other rows order_books k :
  (forall row v, In row rows -> row !! "security"%string = Some v ->
                 py_str v <> k) ->
  fst (process_rows py_str rows order_books) !! k = order_books !! k.
Proof.
  revert order_books. induction rows as [|row rest IH]; intros books H;
    simpl; auto.
  pose proof (process_row_other row books k
                (fun v => H row v (or_introl eq_refl))) as H1.
  destruct (process_row py_str row books) as [books' [[]|e]]; simpl in *; auto.
  rewrite IH; auto. intros r v Hr. apply H. now right.
Qed.

Lemma process_rows_keeps_keys rows order_books k :
  is_Some (order_books !! k) ->
  is_Some (fst (process_rows py_str rows order_books) !! k).
Proof.
  revert order_books. induction rows as [|row rest IH]; intros books H;
    simpl; auto.
  pose proof (process_row_keeps_keys row books k H) as H1.
  destruct (process_row py_str row books) as [books' [[]|e]]; simpl in *; auto.
Qed.

Lemma process_rows_ok rows order_books :
  map_Forall book_ok order_books ->
  map_Forall book_ok (fst (process_rows py_str rows order_books)).
Proof.
  revert order_books. induction rows as [|row rest IH]; intros books H;
    simpl; auto.
  pose proof (process_row_ok row books H) as H1.
  destruct (process_row py_str row books) as [books' [[]|e]]; simpl in *; auto.
Qed.

End Registry.

Lemma update_order_book_stamps row ob tv :
  snd (update_order_book row ob) = Ok tt ->
  row !! "time"%string = Some tv ->
  last_update_time (fst (update_order_book row ob)) = to_pydatetime tv.
Proof.
  intros Hs Ht.
  destruct (update_order_book_cases row ob)
    as [[e E]|(bp & bq & op & oq & E)]; rewrite E in *; simpl in *.
  - discriminate.
  - rewrite Ht. reflexivity.
Qed.

Lemma process_file_ok py_str read_market_data file_path order_books :
  map_Forall book_ok order_books ->
  map_Forall book_ok
    (fst (process_file py_str read_market_data file_path order_books)).
Proof.
  intros H. unfold process_file.
  destruct (read_market_data file_path); auto.
  now apply process_rows_ok.
Qed.

Lemma run_files_ok py_str read_market_data csv_files order_books :
  map_Forall book_ok order_books ->
  map_Forall book_ok
    (run_files py_str read_market_data csv_files order_books).
Proof.
  revert order_books. induction csv_files as [|f rest IH]; intros books H;
    simpl; auto.
  apply IH. now apply process_file_ok.
Qed.

(** X10: the loop of [process_file] keeps the registry sound, whether it
    ends or raises: every book stays filed under its own security with bids
    strictly descending, offers strictly ascending and positive prices and
    quantities, and no security is ever removed from the registry. *)
Theorem process_rows_keeps_registry
  (py_str : pyobj -> string) (rows : list Row) (order_books : Books) :
  map_Forall book_ok order_books ->
  map_Forall book_ok (fst (process_rows py_str rows order_books)) /\
  (forall k, is_Some (order_books !! k) ->
             is_Some (fst (process_rows py_str rows order_books) !! k)).
Proof.
  intros H. split.
  - now apply process_rows_ok.
  - intros k. apply process_rows_keeps_keys.
Qed.

Lemma process_rows_keeps_registry_witness :
  map_Forall book_ok
    (fst (process_rows str_of_text [scenario_row; broken_row] ∅)).
Proof.
  apply (process_rows_keeps_registry str_of_text
           [scenario_row; broken_row] ∅).
  apply map_Forall_empty.
Defined.

(** X11: rows are applied to the book of their own security only: the book
    of a security that none of the rows names is the same after the loop of
    [process_file] as before it, whether the loop ends or raises. *)
Theorem other_securities_are_untouched
  (py_str : pyobj -> string) (rows : list Row) (order_books : Books)
  (k : string) :
  (forall row v, In row rows -> row !! "security"%string = Some v ->
                 py_str v <> k) ->
  fst (process_rows py_str rows order_books) !! k = order_books !! k.
Proof. apply process_rows_other. Qed.

Lemma other_securities_are_untouched_witness :
  fst (process_rows str_of_text [scenario_row; broken_row]
         {["GBPUSD"%string := spread_book]}) !! "GBPUSD"%string
  = Some spread_book.
Proof.
  refine (eq_trans (other_securities_are_untouched str_of_text
                      [scenario_row; broken_row]
                      {["GBPUSD"%string := spread_book]}
                      "GBPUSD"%string _) _); [|reflexivity].
  intros row v [<-|[<-|[]]] E; vm_compute in E; injection E as <-;
    discriminate.
Defined.

(** X12: a security is filed on first sight even when its row cannot be
    applied: for a row that names an unseen security and has a price or
    quantity field that cannot be read, [process_file] raises and leaves a
    new, empty order book for that security in the registry. *)
Theorem unreadable_row_still_files_security
  (py_str : pyobj -> string) (row : Row) (order_books : Books) (v : pyobj) :
  row !! "security"%string = Some v ->
  order_books !! py_str v = None ->
  (exists label, In label level_labels /\ field_fails row label) ->
  exists e,
    process_row py_str row order_books
    = (<[py_str v := new (py_str v)]> order_books, Raise e).
Proof.
  intros Hv Hnone (label & Hin & Hfail).
  destruct (float_fields_fail row level_labels label Hin Hfail) as [e He].
  exists e. rewrite process_row_eq, Hv. simpl. rewrite Hnone. simpl.
  now rewrite (update_order_book_levels_fail row _ e He).
Qed.

Lemma unreadable_row_still_files_security_witness :
  exists e,
    process_row str_of_text broken_row ∅
    = ({["EURUSD"%string := new "EURUSD"]}, Raise e).
Proof.
  apply (unreadable_row_still_files_security str_of_text broken_row ∅
           (PyStr "EURUSD")); try reflexivity.
  exists "BI_price_1"%string. split; [now left|].
  exists KeyError. reflexivity.
Defined.

(** X13: the loop of [process_file] stops at the first row that raises: the
    rows before it stay applied, the book of the failing row stays as
    [update_order_book] left it, the rows after it are not processed, and
    the exception reaches the caller. *)
Theorem process_rows_stops_at_first_error
  (py_str : pyobj -> string) (before after : list Row) (row : Row)
  (order_books books1 books2 : Books) (e : exn) :
  process_rows py_str before order_books = (books1, Ok tt) ->
  process_row py_str row books1 = (books2, Raise e) ->
  process_rows py_str (before ++ row :: after) order_books
  = (books2, Raise e).
Proof.
  intros H1 H2. rewrite process_rows_app, H1. simpl. now rewrite H2.
Qed.

Lemma process_rows_stops_at_first_error_witness :
  process_rows str_of_text ([scenario_row] ++ broken_row :: [scenario_row]) ∅
  = (fst (process_rows str_of_text [scenario_row] ∅), Raise KeyError).
Proof.
  apply (process_rows_stops_at_first_error str_of_text
           [scenario_row] [scenario_row] broken_row ∅
           (fst (process_rows str_of_text [scenario_row] ∅))
           (fst (process_rows str_of_text [scenario_row] ∅)) KeyError).
  - vm_compute. reflexivity.
  - vm_compute. reflexivity.
Defined.

(** X14: when the loop of [process_file] ends without an error, the book of
    a security carries as [last_update_time] the time of the last row that
    names this security, a pandas Timestamp being converted to a datetime. *)
Theorem last_row_stamps_book
  (py_str : pyobj -> string) (before after : list Row) (row : Row)
  (order_books order_books' : Books) (v tv : pyobj) :
  row !! "security"%string = Some v ->
  row !! "time"%string = Some tv ->
  (forall r v', In r after -> r !! "security"%string = Some v' ->
                py_str v' <> py_str v) ->
  process_rows py_str (before ++ row :: after) order_books
  = (order_books', Ok tt) ->
  exists ob, order_books' !! py_str v = Some ob /\
             last_update_time ob = to_pydatetime tv.
Proof.
  intros Hv Ht Hafter Hrun. rewrite process_rows_app in Hrun.
  destruct (process_rows py_str before order_books) as [b1 [[]|e1]];
    [|discriminate].
  simpl in Hrun.
  pose proof (process_row_eq py_str row b1) as Hrow. rewrite Hv in Hrow.
  simpl in Hrow.
  destruct (process_row py_str row b1) as [b2 [[]|e2]]; [|discriminate].
  injection Hrow as -> Hs.
  match type of Hrun with
  | process_rows _ _ ?b = _ =>
      pose proof (process_rows_other py_str after b (py_str v) Hafter) as Hk
  end.
  rewrite Hrun in Hk. simpl in Hk. rewrite lookup_insert_eq in Hk.
  eexists. split; [exact Hk|].
  now apply update_order_book_stamps.
Qed.

Lemma last_row_stamps_book_witness :
  exists ob,
    fst (process_rows str_of_text
           ([] ++ scenario_row
               :: [<["security"%string := PyStr "GBPUSD"]> scenario_row]) ∅)
    !! "EURUSD"%string = Some ob /\
    last_update_time ob = Datetime 1.
Proof.
  apply (last_row_stamps_book str_of_text []
           [<["security"%string := PyStr "GBPUSD"]> scenario_row]
           scenario_row ∅ _ (PyStr "EURUSD") (Timestamp 1));
    try reflexivity.
  intros r v' [<-|[]] E; vm_compute in E; injection E as <-; discriminate.
Defined.

(** X15: [run] raises FileNotFoundError exactly when the data directory does
    not exist; otherwise it returns a registry, empty when the directory has
    no CSV file, in which every book is filed under its own security with
    bids strictly descending, offers strictly ascending and positive prices
    and quantities, whatever the files hold and whichever of them fail. *)
Theorem run_returns_sound_registry
  (py_str : pyobj -> string)
  (read_market_data : string -> result (list Row))
  (path_exists : string -> bool)
  (sorted_csv_files : string -> list string) (data_dir : string) :
  (path_exists data_dir = false <->
   run py_str read_market_data path_exists sorted_csv_files data_dir
   = FileNotFoundError) /\
  (path_exists data_dir = true ->
   exists order_books,
     run py_str read_market_data path_exists sorted_csv_files data_dir
     = Returned order_books /\
     map_Forall book_ok order_books /\
     (sorted_csv_files data_dir = [] -> order_books = ∅)).
Proof.
  unfold run. destruct (path_exists data_dir); simpl.
  - split; [split; [discriminate|]|intros _].
    + destruct (sorted_csv_files data_dir); discriminate.
    + destruct (sorted_csv_files data_dir) as [|f rest] eqn:E.
      * exists ∅. split; [reflexivity|].
        split; [apply map_Forall_empty|reflexivity].
      * eexists. split; [reflexivity|]. split; [|discriminate].
        apply (run_files_ok _ _ (f :: rest)), map_Forall_empty.
  - split; [split; auto|discriminate].
Qed.

Lemma run_returns_sound_registry_witness :
  exists order_books,
    run str_of_text example_read (fun _ => true) example_files "data"
    = Returned order_books /\
    map_Forall book_ok order_books.
Proof.
  destruct (proj2 (run_returns_sound_registry str_of_text example_read
                     (fun _ => true) example_files "data") eq_refl)
    as (books & Hrun & Hok & _).
  exists books. split; assumption.
Defined.

(** ** Removing the best level *)

Lemma apply_level_delete_head p q0 q rest :
  is_pos p -> eq q zero = true ->
  apply_level ((p, q0) :: rest) (p, q) = rest.
Proof.
  intros Hp Hq. unfold apply_level, is_pos in *.
  rewrite Hp, (eq_zero_not_gt _ Hq), Hq. simpl.
  now rewrite key_match_refl.
Qed.

Lemma wf_tail kv d : wf (kv :: d) -> wf d.
Proof.
  intros [Hnd Hpos]. simpl in *.
  apply List.NoDup_cons_iff in Hnd as [_ Hnd].
  apply List.Forall_cons_iff in Hpos as [_ Hpos]. now split.
Qed.

(** X16: removing the best level promotes the next one: on a side in order,
    a batch that names the best price with quantity 0.0, at any of its five
    indexes and with price 0.0 elsewhere, leaves exactly the other levels,
    in their order, so that the second level becomes the best bid
    (respectively the best offer). *)
Theorem removing_best_promotes_next
  (ob : OrderBook) (i : nat) (p q0 q : float) (quantities : list float)
  (rest : list (float * float)) :
  (i < 5)%nat -> quantities !! i = Some q -> eq q zero = true ->
  (wf (bids ob) -> descending (bids ob) -> bids ob = (p, q0) :: rest ->
   (update_bids (single_level_prices i p) quantities ;; get_best_bid) ob
   = (set_bids ob rest, Ok (head rest))) /\
  (wf (offers ob) -> ascending (offers ob) -> offers ob = (p, q0) :: rest ->
   (update_offers (single_level_prices i p) quantities ;; get_best_offer) ob
   = (set_offers ob rest, Ok (head rest))).
Proof.
  intros Hi Hq Hq0. split; intros Hwf Hs E.
  - assert (Hp : is_pos p)
      by (destruct Hwf as [_ H]; rewrite E in H; now inversion H).
    assert (Hz : all_zero (single_level_prices i p) = false)
      by now apply all_zero_single_level.
    rewrite E in Hwf, Hs. pose proof (wf_tail _ _ Hwf) as Hwr.
    assert (Hsr : descending rest) by now inversion Hs.
    unfold bind. rewrite update_bids_eq, Hz.
    rewrite get_best_bid_head. simpl. unfold bids_after, single_level_prices.
    rewrite (fold_single_level i 5 p q), E by auto.
    rewrite apply_level_delete_head by auto. unfold items.
    rewrite sorted_reverse_of_descending by (auto; apply Hwr).
    now rewrite of_items_wf.
  - assert (Hp : is_pos p)
      by (destruct Hwf as [_ H]; rewrite E in H; now inversion H).
    assert (Hz : all_zero (single_level_prices i p) = false)
      by now apply all_zero_single_level.
    rewrite E in Hwf, Hs. pose proof (wf_tail _ _ Hwf) as Hwr.
    assert (Hsr : ascending rest) by now inversion Hs.
    unfold bind. rewrite update_offers_eq, Hz.
    rewrite get_best_offer_head. simpl.
    unfold offers_after, single_level_prices.
    rewrite (fold_single_level i 5 p q), E by auto.
    rewrite apply_level_delete_head by auto. unfold items.
    rewrite sorted_of_ascending by (auto; apply Hwr).
    now rewrite of_items_wf.
Qed.

Lemma removing_best_promotes_next_witness :
  (update_bids [zero; zero; f1_10; zero; zero] [zero; zero; zero; zero; zero]
   ;; get_best_bid)
    (mkOrderBook "EURUSD" [(f1_10, of_Z 5); (f1_09, of_Z 3)] [] PyNone)
  = (mkOrderBook "EURUSD" [(f1_09, of_Z 3)] [] PyNone,
     Ok (Some (f1_09, of_Z 3))).
Proof.
  apply (proj1 (removing_best_promotes_next
                  (mkOrderBook "EURUSD" [(f1_10, of_Z 5); (f1_09, of_Z 3)]
                     [] PyNone)
                  2 f1_10 (of_Z 5) zero [zero; zero; zero; zero; zero]
                  [(f1_09, of_Z 3)] ltac:(lia) eq_refl eq_refl));
    try reflexivity.
  - split; simpl; repeat constructor.
    + intros [E|[]]. vm_compute in E. discriminate E.
    + intros [].
  - repeat constructor.
Defined.
